(** * Arbitcrypto: graph builder and dashboard progress cache

    A shallow embedding of
    - [trading/algorithms/utils.py]: [assets_to_edges_list], [nodes_to_assets];
    - [backend/web/pages/dashboard.py]: [reset_cache], the publishing loop of
      [update_report_state] and the poller [update_run_progress].

    Python exceptions are modelled by the error monad [result]; Python floats
    by exact canonical rationals ([Qc]), so that rounding is left out, the
    value of [np.log] being kept symbolic.

    The callbacks of the dashboard are functions of one session's store in a
    state and error monad.  What lies outside the two files is a parameter:
    the quote source, the strategy generator (given by the results it yields
    and the exception it may end with), [json.loads] and the layout builders.
    Where a statement is decided by the strategy, which the repository keeps
    in trading/strategies, the generator is the one of module [Strategy],
    written after the spec.
    The two dates are taken as parsed; the construction of the price API and
    of the blockchain, and the expiry of store entries, are left out. *)

From Stdlib Require Import ZArith QArith Qcanon Lia.
From stdpp Require Import gmap strings list fin_maps numbers sorting.

Local Open Scope Z_scope.

(** ** Exceptions *)

Inductive exn : Type :=
  | TypeError
  | IndexError
  | ZeroDivisionError
  | ValueError
  | PreventUpdate
  | Raised (what : string).

Inductive result (A : Type) : Type :=
  | Ok (a : A)
  | Err (e : exn).
Arguments Ok {A} a.
Arguments Err {A} e.

Global Instance result_ret : MRet result := fun _ a => Ok a.
Global Instance result_bind : MBind result := fun _ _ f r =>
  match r with
  | Ok a => f a
  | Err e => Err e
  end.

Definition is_Ok {A} (r : result A) : Prop := exists a, r = Ok a.
Definition is_Err {A} (r : result A) : Prop := exists e, r = Err e.

(** A [for] loop whose body may raise: the first exception ends the loop. *)
Fixpoint for_each {S B : Type} (body : S -> B -> result S) (l : list B) (s : S)
  : result S :=
  match l with
  | [] => Ok s
  | b :: l' => s' ← body s b; for_each body l' s'
  end.

(** The results of [f] on the elements of a list, up to the first exception. *)
Fixpoint mapM {A B : Type} (f : A -> result B) (l : list A) : result (list B) :=
  match l with
  | [] => Ok []
  | x :: l' => y ← f x; ys ← mapM f l'; Ok (y :: ys)
  end.

(** Python's [enumerate]. *)
Fixpoint enumerate_from {A : Type} (k : Z) (l : list A) : list (Z * A) :=
  match l with
  | [] => []
  | x :: l' => (k, x) :: enumerate_from (k + 1) l'
  end.
Definition enumerate {A : Type} (l : list A) : list (Z * A) := enumerate_from 0 l.

(** Python's [l[i]] on a list: negative indices count from the end, anything
    outside [-len, len) raises [IndexError]. *)
Definition py_index {A : Type} (l : list A) (i : Z) : result A :=
  let n := Z.of_nat (length l) in
  let k := if i <? 0 then n + i else i in
  if (0 <=? k) && (k <? n) then
    match l !! Z.to_nat k with
    | Some x => Ok x
    | None => Err IndexError
    end
  else Err IndexError.

(** ** trading/algorithms/utils.py *)

Module Utils.

Record Asset : Type := mkAsset { platform : string; symbol : string }.

(** What [Exchanger.exchange] hands back: a float, or [None]. *)
Inductive pyrate : Type :=
  | RNone
  | RFloat (x : Qc).

(** The float [np.log] returns.  [Ln x] stands for the finite logarithm of a
    positive [x]; numpy answers [-inf] at zero and [nan] below it. *)
Inductive logval : Type :=
  | Ln (x : Qc)
  | NegInf
  | NaN.

Definition float_log (x : Qc) : logval :=
  if decide (0 < x)%Qc then Ln x
  else if decide (x = 0%Qc) then NegInf
  else NaN.

Definition np_log (r : pyrate) : result logval :=
  match r with
  | RNone => Err TypeError
  | RFloat x => Ok (float_log x)
  end.

Record Edge : Type := mkEdge {
  from_asset : Asset;
  from_node : Z;
  to_asset : Asset;
  to_node : Z;
  weight : logval
}.

(** The quote source: [exchange timestamp from_asset to_asset timespan]. *)
Record Exchanger : Type := {
  exchange : Z -> Asset -> Asset -> Z -> result pyrate
}.

(** [f'{asset.platform}_{asset.symbol}'] *)
Definition platform_symbol (a : Asset) : string :=
  platform a +:+ "_" +:+ symbol a.

Definition inner_body (timestamp : Z) (exchanger : Exchanger) (timespan : Z)
    (from_node : Z) (from_asset : Asset)
    (edges_list : list Edge) (p : Z * Asset) : result (list Edge) :=
  let '(to_node, to_asset) := p in
  if bool_decide (from_node = to_node) then Ok edges_list
  else if bool_decide (platform from_asset ≠ platform to_asset)
          && bool_decide (symbol from_asset ≠ symbol to_asset) then Ok edges_list
  else
    rate ← exchange exchanger timestamp from_asset to_asset timespan;
    w ← np_log rate;
    Ok (edges_list ++ [mkEdge from_asset from_node to_asset to_node w]).

Definition outer_body (assets : list Asset) (timestamp : Z)
    (exchanger : Exchanger) (timespan : Z)
    (st : list Edge * gmap string Z) (p : Z * Asset)
  : result (list Edge * gmap string Z) :=
  let '(edges_list, nodes_mapping) := st in
  let '(from_node, from_asset) := p in
  let nodes_mapping := <[platform_symbol from_asset := from_node]> nodes_mapping in
  edges_list ← for_each (inner_body timestamp exchanger timespan from_node from_asset)
                        (enumerate assets) edges_list;
  Ok (edges_list, nodes_mapping).

Definition assets_to_edges_list (assets : list Asset) (timestamp : Z)
    (exchanger : Exchanger) (timespan : Z)
  : result (list Edge * gmap string Z) :=
  for_each (outer_body assets timestamp exchanger timespan)
           (enumerate assets) ([], ∅).

Definition nodes_to_assets (nodes : list Z) (assets : list Asset)
  : result (list Asset) :=
  for_each (fun result node => a ← py_index assets node; Ok (result ++ [a]))
           nodes [].

(** A quote source that always answers with a float. *)
Definition quoting (q : Z -> Asset -> Asset -> Z -> Qc) : Exchanger :=
  {| exchange := fun t a b s => Ok (RFloat (q t a b s)) |}.

End Utils.

(** ** backend/web/pages/dashboard.py *)

Module Dashboard.

(** Python's [a / b] on two ints: true division, a float. *)
Definition py_truediv (a b : Z) : result Qc :=
  if bool_decide (b = 0) then Err ZeroDivisionError
  else Ok (Qc_of_Z a / Qc_of_Z b)%Qc.

(** Python's [min(a, b)]: [b] when [b < a], otherwise [a]. *)
Definition py_min (a b : Qc) : Qc :=
  if decide (b < a)%Qc then b else a.

Definition hundred : Qc := Qc_of_Z 100.

Section Callbacks.

(** The report data frame, the price history, one graph of the history, the
    decoded portfolio and a rendered layout component are opaque here. *)
Context {Report Prices Graph Portfolio Html : Type}.

(** The values the callbacks put in the store. *)
Inductive pyval : Type :=
  | PyNone
  | PyFloat (x : Qc)
  | PyReport (r : Report)
  | PyPrices (p : Prices)
  | PyGraphs (g : list Graph).

(** One session's [FileSystemStore]: a key that was never set reads [None]. *)
Definition fsc_get (key : string) (fsc : gmap string pyval) : pyval :=
  default PyNone (fsc !! key).
Definition fsc_set (key : string) (value : pyval) (fsc : gmap string pyval)
  : gmap string pyval := <[key := value]> fsc.
Definition fsc_clear (fsc : gmap string pyval) : gmap string pyval := ∅.

(** A callback body: it reads and writes the store and may raise; what it
    wrote before raising stays written. *)
Definition M (A : Type) : Type := gmap string pyval -> result A * gmap string pyval.

Definition ret {A} (a : A) : M A := fun fsc => (Ok a, fsc).
Definition raise {A} (e : exn) : M A := fun fsc => (Err e, fsc).
Definition bind {A B} (m : M A) (k : A -> M B) : M B := fun fsc =>
  match m fsc with
  | (Ok a, fsc') => k a fsc'
  | (Err e, fsc') => (Err e, fsc')
  end.
Definition lift {A} (r : result A) : M A := fun fsc => (r, fsc).
Definition get (key : string) : M pyval := fun fsc => (Ok (fsc_get key fsc), fsc).
Definition set (key : string) (value : pyval) : M unit :=
  fun fsc => (Ok tt, fsc_set key value fsc).
Definition clear : M unit := fun fsc => (Ok tt, fsc_clear fsc).

Notation "x <- m ;; k" := (bind m (fun x => k))
  (at level 100, m at next level, right associativity).
Notation "m ;; k" := (bind m (fun _ => k))
  (at level 100, right associativity).

Definition reset_cache : M unit :=
  graphs_history <- get "graphs_history";;
  clear;;
  set "report_table" PyNone;;
  set "run_progress" PyNone;;
  set "graphs_history" graphs_history.

Definition on_page_load : M Html :=
  reset_cache;;
  raise PreventUpdate.

(** One [run_res] of the strategy generator; [report] is the data frame
    [pd.DataFrame(run_res['report'])]. *)
Record RunRes : Type := mkRunRes {
  report : Report;
  prices : Prices;
  graphs_history : list Graph;
  end_timestamp : Z
}.

(** What iterating the strategy generator gives: the results it yields and
    then either exhaustion or an exception. *)
Record generator : Type := mkGenerator {
  yielded : list RunRes;
  raised : option exn
}.

(** [run_res['end_timestamp']], apart from the local [end_timestamp]. *)
Definition res_end_timestamp (run_res : RunRes) : Z := end_timestamp run_res.

Definition run_progress (start_timestamp end_timestamp : Z) (run_res : RunRes)
  : result Qc :=
  ratio ← py_truediv (res_end_timestamp run_res - start_timestamp)
                     (end_timestamp - start_timestamp);
  Ok (ratio * hundred)%Qc.

(** The locals [report_data], [prices_data], [graphs_history] of the loop. *)
Definition locals : Type := option Report * option Prices * list Graph.

(** The body of the [for run_res in ...] loop. *)
Definition loop_body (start_timestamp end_timestamp : Z)
    (_ : locals) (run_res : RunRes) : M locals :=
  set "graphs_history" (PyGraphs (graphs_history run_res));;
  set "report_table" (PyReport (report run_res));;
  set "prices" (PyPrices (prices run_res));;
  progress <- lift (run_progress start_timestamp end_timestamp run_res);;
  set "run_progress" (PyFloat progress);;
  ret (Some (report run_res), Some (prices run_res), graphs_history run_res).

Fixpoint loop (start_timestamp end_timestamp : Z) (rs : list RunRes)
    (l : locals) : M locals :=
  match rs with
  | [] => ret l
  | run_res :: rs' =>
      l' <- loop_body start_timestamp end_timestamp l run_res;;
      loop start_timestamp end_timestamp rs' l'
  end.

Definition iterate (start_timestamp end_timestamp : Z) (g : generator)
  : M locals :=
  l <- loop start_timestamp end_timestamp (yielded g) (None, None, []);;
  match raised g with
  | Some e => raise e
  | None => ret l
  end.

(** The rest of [update_report_state] once the store is reset.  [json_loads]
    is [json.loads]; [strategy start end granularity portfolio] is the
    generator [name_to_strategy(strategy_name)(...)] makes, its other
    arguments being fixed.  [start_timestamp] and [end_timestamp] are the two
    parsed dates.  The result lists what the six layout builders are given:
    the last report, the last graph and the last prices.  The builders
    themselves, which the return statement calls in turn and which may
    raise, are left out: a result [Ok] says that what they are given was
    obtained. *)
Definition run_strategy
    (json_loads : string -> result Portfolio)
    (strategy : Z -> Z -> Z -> Portfolio -> generator)
    (json_portfolio : string)
    (start_timestamp end_timestamp primary_granularity : Z)
  : M (option Report * Graph * option Prices) :=
  portfolio <- lift (json_loads json_portfolio);;
  l <- iterate start_timestamp end_timestamp
         (strategy start_timestamp end_timestamp primary_granularity portfolio);;
  let '(report_data, prices_data, graphs_history) := l in
  last_graph <- lift (py_index graphs_history (-1));;
  ret (report_data, last_graph, prices_data).

Definition update_report_state
    (json_loads : string -> result Portfolio)
    (strategy : Z -> Z -> Z -> Portfolio -> generator)
    (run_n_clicks : option Z) (json_portfolio : string)
    (start_timestamp end_timestamp primary_granularity : Z)
  : M (option Report * Graph * option Prices) :=
  match run_n_clicks with
  | None => raise PreventUpdate
  | Some _ =>
      reset_cache;;
      run_strategy json_loads strategy json_portfolio
                   start_timestamp end_timestamp primary_granularity
  end.

Definition update_run_progress (create_progress_bar : Qc -> Html) : M Html :=
  value <- get "run_progress";;
  match value with
  | PyNone =>
      reset_cache;;
      ret (create_progress_bar 0%Qc)
  | PyFloat value =>
      let value := py_min value hundred in
      (if decide (value = hundred) then reset_cache else ret tt);;
      ret (create_progress_bar value)
  | _ => raise TypeError (* [min] of a value that is no number and 100 *)
  end.


(** Every read of the store misses. *)
Definition cache_empty (fsc : gmap string pyval) : Prop :=
  forall key, fsc_get key fsc = PyNone.

End Callbacks.

Arguments pyval : clear implicits.
Arguments RunRes : clear implicits.
Arguments generator : clear implicits.

End Dashboard.

(** ** The readers of dashboard.py *)

Module Readers.
Import Dashboard.

(** [{'display': 'block'}] *)
Definition display_block : list (string * string) := [("display", "block")].

Section Readers.
Context {Report Prices Graph Html : Type}.

Notation "x <- m ;; k" := (bind m (fun x => k))
  (at level 100, m at next level, right associativity).

(** The layout builders are given whatever the store holds under the key. *)
Definition update_report_table
    (create_report_table : pyval Report Prices Graph -> Html)
  : @M Report Prices Graph (Html * list (string * string)) :=
  data <- get "report_table";;
  match data with
  | PyNone => raise PreventUpdate
  | _ => ret (create_report_table data, display_block)
  end.

Definition update_step_control
    (create_step_control : pyval Report Prices Graph -> bool -> Html)
  : @M Report Prices Graph Html :=
  data <- get "report_table";;
  match data with
  | PyNone => raise PreventUpdate
  | _ => ret (create_step_control data true)
  end.

Definition update_trades_predictions
    (create_trades_predictions : pyval Report Prices Graph -> Html)
  : @M Report Prices Graph Html :=
  data <- get "report_table";;
  match data with
  | PyNone => raise PreventUpdate
  | _ => ret (create_trades_predictions data)
  end.

Definition update_trades
    (create_trades : pyval Report Prices Graph -> Z -> Html) (gran : Z)
  : @M Report Prices Graph Html :=
  data <- get "report_table";;
  match data with
  | PyNone => raise PreventUpdate
  | _ => ret (create_trades data gran)
  end.

(** [len(data)] and [data[graph_idx]] are those of a list; a value that is
    neither [None] nor a list is answered with [TypeError]. *)
Definition update_network (create_network : Graph -> Html) (graph_idx : Z)
  : @M Report Prices Graph Html :=
  data <- get "graphs_history";;
  match data with
  | PyNone => raise PreventUpdate
  | PyGraphs data =>
      if bool_decide (length data = 0%nat) then raise PreventUpdate
      else
        graph <- lift (py_index data graph_idx);;
        ret (create_network graph)
  | _ => raise TypeError
  end.

Definition update_prices
    (create_prices : pyval Report Prices Graph -> Html)
  : @M Report Prices Graph Html :=
  data <- get "prices";;
  match data with
  | PyNone => raise PreventUpdate
  | _ => ret (create_prices data)
  end.

(** The first callback named [update_running], fed by the step slider. *)
Definition update_running_slider (create_network : Graph -> Html) (step : Z)
  : @M Report Prices Graph Html :=
  update_network create_network step.

(** The second callback named [update_running], fed by the interval. *)
Definition update_running
    (create_step_control : pyval Report Prices Graph -> bool -> Html)
    (create_trades_predictions : pyval Report Prices Graph -> Html)
    (create_trades : pyval Report Prices Graph -> Z -> Html)
    (create_network : Graph -> Html)
    (create_prices : pyval Report Prices Graph -> Html)
    (secondary_granularity step : Z)
  : @M Report Prices Graph (Html * Html * Html * Html * Html) :=
  a <- update_step_control create_step_control;;
  b <- update_trades_predictions create_trades_predictions;;
  c <- update_trades create_trades secondary_granularity;;
  d <- update_network create_network step;;
  e <- update_prices create_prices;;
  ret (a, b, c, d, e).

End Readers.
End Readers.

(** ** Vocabulary of the statements *)

Module Spec.
Import Utils.

(** Two assets are linked when they share the platform or the symbol. *)
Definition linked (a b : Asset) : Prop :=
  platform a = platform b \/ symbol a = symbol b.

(** The test the inner loop applies to a pair of enumerated assets. *)
Definition wanted (p q : Z * Asset) : bool :=
  negb (bool_decide (p.1 = q.1))
  && negb (bool_decide (platform p.2 ≠ platform q.2)
           && bool_decide (symbol p.2 ≠ symbol q.2)).

(** The pairs the two loops keep, in the order they meet them. *)
Definition kept_pairs (assets : list Asset) : list ((Z * Asset) * (Z * Asset)) :=
  p ← enumerate assets; (fun q => (p, q)) <$> filter (fun q => wanted p q) (enumerate assets).

(** The edge made for one kept pair. *)
Definition quote_edge (timestamp : Z) (exchanger : Exchanger) (timespan : Z)
    (pq : (Z * Asset) * (Z * Asset)) : result Edge :=
  rate ← exchange exchanger timestamp pq.1.2 pq.2.2 timespan;
  w ← np_log rate;
  Ok (mkEdge pq.1.2 pq.1.1 pq.2.2 pq.2.1 w).

(** The dictionary the outer loop fills. *)
Definition mapping_of (ps : list (Z * Asset)) (m : gmap string Z) : gmap string Z :=
  foldl (fun m p => <[platform_symbol p.2 := p.1]> m) m ps.

Definition ends (e : Edge) : Z * Z := (from_node e, to_node e).

Definition edges_of (r : result (list Edge * gmap string Z)) : option (list Edge) :=
  match r with
  | Ok (edges, _) => Some edges
  | Err _ => None
  end.

(** A quote that gives no usable rate: the lookup raised, the rate is
    undefined, or the rate is not positive. *)
Definition quote_gap (r : result pyrate) : Prop :=
  match r with
  | Ok (RFloat x) => (x ≤ 0)%Qc
  | Ok RNone => True
  | Err _ => True
  end.

(** A builder that leaves out exactly the edges of the linked pairs whose
    quote is a gap, and still returns the snapshot. *)
Definition omits_quote_gaps (assets : list Asset) (timestamp : Z)
    (exchanger : Exchanger) (timespan : Z) : Prop :=
  exists edges nodes_mapping,
    assets_to_edges_list assets timestamp exchanger timespan
      = Ok (edges, nodes_mapping)
    /\ forall (n k : nat) a b,
         assets !! n = Some a -> assets !! k = Some b -> n ≠ k -> linked a b ->
         (quote_gap (exchange exchanger timestamp a b timespan) ->
            forall e, e ∈ edges -> ends e ≠ (Z.of_nat n, Z.of_nat k))
         /\ (¬ quote_gap (exchange exchanger timestamp a b timespan) ->
            exists e, e ∈ edges /\ ends e = (Z.of_nat n, Z.of_nat k)).

End Spec.

Module DashSpec.
Import Dashboard.

Section Progress.
Context {Report Prices Graph : Type}.

(** [(t − start) / (end − start) × 100] *)
Definition progress_formula (start_timestamp end_timestamp t : Z) : Qc :=
  (Qc_of_Z (t - start_timestamp) / Qc_of_Z (end_timestamp - start_timestamp)
   * hundred)%Qc.

(** Clamping to [[0, 100]]. *)
Definition clamp (x : Qc) : Qc :=
  if decide (x < 0)%Qc then 0%Qc
  else if decide (hundred < x)%Qc then hundred
  else x.


(** A step that leaves the clamped progress in the store. *)
Definition publishes_clamped (start_timestamp end_timestamp : Z)
    (run_res : RunRes Report Prices Graph) (l : locals)
    (fsc : gmap string (pyval Report Prices Graph)) : Prop :=
  exists l' fsc',
    loop_body start_timestamp end_timestamp l run_res fsc = (Ok l', fsc')
    /\ fsc_get "run_progress" fsc'
       = PyFloat (clamp (progress_formula start_timestamp end_timestamp
                                          (res_end_timestamp run_res))).



(** A callback that failed with the store as the reset left it. *)
Definition fails_fast {A : Type}
    (out : result A * gmap string (pyval Report Prices Graph))
    (fsc : gmap string (pyval Report Prices Graph)) : Prop :=
  is_Err out.1 /\ out.2 = (reset_cache fsc).2.

(** A store in which every component of the run state reads [None]. *)
Definition run_state_cleared (fsc : gmap string (pyval Report Prices Graph)) : Prop :=
  fsc_get "report_table" fsc = PyNone /\ fsc_get "run_progress" fsc = PyNone
  /\ fsc_get "graphs_history" fsc = PyNone /\ fsc_get "prices" fsc = PyNone.

(** The three writes a step makes before its progress is computed. *)
Definition step_writes (run_res : RunRes Report Prices Graph)
    (fsc : gmap string (pyval Report Prices Graph))
  : gmap string (pyval Report Prices Graph) :=
  <["prices" := PyPrices (prices run_res)]>
    (<["report_table" := PyReport (report run_res)]>
       (<["graphs_history" := PyGraphs (graphs_history run_res)]> fsc)).

(** Two stores the poller's answer tells apart. *)
Definition told_apart {Html : Type} (create_progress_bar : Qc -> Html)
    (fsc1 fsc2 : gmap string (pyval Report Prices Graph)) : Prop :=
  (update_run_progress create_progress_bar fsc1).1
  ≠ (update_run_progress create_progress_bar fsc2).1.

(** The locals before the first iteration. *)
Definition no_locals : @locals Report Prices Graph := (None, None, []).

End Progress.
End DashSpec.

(** ** Sample data *)

Module Sample.
Import Utils.

Definition X_BTC : Asset := mkAsset "X" "BTC".
Definition X_ETH : Asset := mkAsset "X" "ETH".
Definition Y_BTC : Asset := mkAsset "Y" "BTC".
Definition Y_ETH : Asset := mkAsset "Y" "ETH".

(** The same rate for every pair. *)
Definition flat (r : Qc) : Exchanger := quoting (fun _ _ _ _ => r).
(** A source without any quote: every lookup raises. *)
Definition silent : Exchanger :=
  {| exchange := fun _ _ _ _ => Err (Raised "no quote") |}.
(** A source whose rates are undefined. *)
Definition undefined : Exchanger :=
  {| exchange := fun _ _ _ _ => Ok RNone |}.

(** A result of the strategy for the step at [t]: the report and the prices
    are texts, a graph is named by its timestamp. *)
Definition res_at (t : Z) : Dashboard.RunRes string string Z :=
  Dashboard.mkRunRes "report" "prices" [t] t.

(** A generator given by the steps it yields, to try the callbacks on; it is
    no model of the strategy. *)
Definition yielding (ts : list Z) (_ _ _ : Z) (_ : string)
  : Dashboard.generator string string Z :=
  Dashboard.mkGenerator (res_at <$> ts) None.

(** A decoder that accepts every portfolio text as it is, and one that
    rejects every text. *)
Definition accept (json : string) : result string := Ok json.
Definition reject (_ : string) : result string := Err ValueError.

(** A progress bar shown as its value. *)
Definition bar (value : Qc) : Qc := value.

(** A store holding the graphs of an earlier run. *)
Definition stale : gmap string (Dashboard.pyval string string Z) :=
  {[ "graphs_history" := Dashboard.PyGraphs [0; 60] ]}.

End Sample.

(** ** Further vocabulary *)

Module MoreSpec.
Import Utils Dashboard.

(** The order in which the two loops meet pairs of positions. *)
Definition ends_lt (x y : Z * Z) : Prop :=
  x.1 < y.1 \/ (x.1 = y.1 /\ x.2 < y.2).

(** The position Python's indexing reads for [i] in a list of length [n]. *)
Definition wrap (n : nat) (i : Z) : nat :=
  Z.to_nat (if i <? 0 then Z.of_nat n + i else i).

Section Typing.
Context {Report Prices Graph : Type}.

(** Each of the four keys holds [None] or a value of its own kind. *)
Definition store_typed (fsc : gmap string (pyval Report Prices Graph)) : Prop :=
  (fsc_get "report_table" fsc = PyNone \/ exists r, fsc_get "report_table" fsc = PyReport r)
  /\ (fsc_get "run_progress" fsc = PyNone \/ exists x, fsc_get "run_progress" fsc = PyFloat x)
  /\ (fsc_get "graphs_history" fsc = PyNone
      \/ exists g, fsc_get "graphs_history" fsc = PyGraphs g)
  /\ (fsc_get "prices" fsc = PyNone \/ exists p, fsc_get "prices" fsc = PyPrices p).

End Typing.
End MoreSpec.

(** ** Further sample data *)

Module MoreSample.
Import Utils Sample.

(** A source that answers 2 for linked assets and raises for any other pair. *)
Definition picky : Exchanger :=
  {| exchange := fun _ a b _ =>
       if bool_decide (platform a = platform b \/ symbol a = symbol b)
       then Ok (RFloat (Qc_of_Z 2))
       else Err (Raised "not linked") |}.

(** A source that has no quote for pairs leaving the platform Y. *)
Definition no_quote_from_Y : Exchanger :=
  {| exchange := fun _ a _ _ =>
       if bool_decide (platform a = "Y"%string)
       then Err (Raised "no quote")
       else Ok (RFloat (Qc_of_Z 2)) |}.

(** A strategy that yields the given steps and then raises. *)
Definition failing_after (ts : list Z) (e : exn) (_ _ _ : Z) (_ : string)
  : Dashboard.generator string string Z :=
  Dashboard.mkGenerator (res_at <$> ts) (Some e).

(** Layout builders that show the value they are given. *)
Definition show (data : Dashboard.pyval string string Z)
  : Dashboard.pyval string string Z := data.
Definition show_step (data : Dashboard.pyval string string Z) (_ : bool)
  : Dashboard.pyval string string Z := data.
Definition show_trades (data : Dashboard.pyval string string Z) (_ : Z)
  : Dashboard.pyval string string Z := data.
Definition show_graph (graph : Z) : Dashboard.pyval string string Z :=
  Dashboard.PyGraphs [graph].

(** Stores in which a progress, or a graphs history, was left. *)
Definition at_progress (x : Qc) : gmap string (Dashboard.pyval string string Z) :=
  {[ "run_progress" := Dashboard.PyFloat x ]}.
Definition with_graphs (graphs : list Z)
  : gmap string (Dashboard.pyval string string Z) :=
  {[ "graphs_history" := Dashboard.PyGraphs graphs ]}.

(** The edges built from a source that quotes [r] for every pair. *)
Definition flat_edges (assets : list Asset) (r : Qc) : list Edge :=
  (fun pq : (Z * Asset) * (Z * Asset) =>
     mkEdge pq.1.2 pq.1.1 pq.2.2 pq.2.1 (float_log r)) <$> Spec.kept_pairs assets.

End MoreSample.

(** ** The strategy, from the spec *)

Module Strategy.
Import Dashboard.

(** A decoded JSON value, as [json.loads] returns it. *)
#[local] Unset Elimination Schemes.
Inductive json : Type :=
  | JNull
  | JBool (b : bool)
  | JNumber (x : Qc)
  | JString (s : string)
  | JArray (items : list json)
  | JObject (fields : list (string * json)).
#[local] Set Elimination Schemes.

(** Modelled from the spec: the check of the portfolio a run starts with,
    made in the strategy of trading/strategies, which is not among the
    sources.  Spec, section 6: "initial_portfolio must map to a valid,
    non-negative amount per asset". *)
Definition valid_portfolio (portfolio : json) : bool :=
  match portfolio with
  | JObject fields =>
      forallb (fun field : string * json =>
                 match field.2 with
                 | JNumber amount => bool_decide (0 ≤ amount)%Qc
                 | _ => false
                 end) fields
  | _ => false
  end.

(** The validation error of the spec, sections 6 and 7. *)
Definition ValidationError : exn := Raised "validation error".

(** Modelled from the spec: the timestamps of the steps of a run, computed
    by the strategy of trading/strategies, which is not among the sources.
    Spec, section 4.4: "for each timestamp t from start to end advancing by
    primary granularity", the run being completed "when t reaches end;
    final progress forced to 100"; section 8: a run from 0 to 100 with
    granularity 25 has exactly the 5 steps 0, 25, 50, 75, 100.  So [t]
    advances by the granularity while it is before [end], and the last step
    is at [end]. *)
Fixpoint steps_from (fuel : nat) (t end_timestamp granularity : Z) : list Z :=
  match fuel with
  | O => [end_timestamp]
  | S fuel' =>
      if end_timestamp <=? t then [end_timestamp]
      else t :: steps_from fuel' (t + granularity) end_timestamp granularity
  end.

Definition step_timestamps (start_timestamp end_timestamp granularity : Z)
  : list Z :=
  steps_from (Z.to_nat (end_timestamp - start_timestamp))
             start_timestamp end_timestamp granularity.

Section Strategy.
Context {Report Prices Graph : Type}.

(** What the graph builder, the cycle detector and the trade executor have
    accumulated at the step of a timestamp: a parameter. *)
Variable outcome : Z -> Report * Prices * list Graph.

Definition step_at (t : Z) : RunRes Report Prices Graph :=
  mkRunRes (outcome t).1.1 (outcome t).1.2 (outcome t).2 t.

(** Modelled from the spec: the strategy generator
    [name_to_strategy(strategy_name)(...)] of trading/strategies, which is
    not among the sources.  Spec, sections 4.4, 6 and 7: a request whose end
    timestamp is not strictly greater than its start timestamp, or whose
    portfolio is not valid, fails with a validation error before any step
    executes; otherwise the run has one step for each timestamp of
    [step_timestamps] and then completes.  A granularity that is not
    positive cannot advance and is refused in the same way. *)
Definition strategy (start_timestamp end_timestamp primary_granularity : Z)
    (portfolio : json) : generator Report Prices Graph :=
  if bool_decide (start_timestamp < end_timestamp)
     && bool_decide (0 < primary_granularity)
     && valid_portfolio portfolio
  then mkGenerator
         (step_at <$> step_timestamps start_timestamp end_timestamp
                                      primary_granularity) None
  else mkGenerator [] (Some ValidationError).

End Strategy.

(** Sample data: a portfolio, a decoder that reads it from every text, and
    steps whose report and prices are texts and whose graph is named by the
    timestamp. *)
Definition holdings : json :=
  JObject [("X_BTC"%string, JNumber (Qc_of_Z 1)); ("X_ETH"%string, JNumber 0%Qc)].
Definition overdrawn : json :=
  JObject [("X_BTC"%string, JNumber (Qc_of_Z (-1)))].
Definition decode (portfolio : json) (_ : string) : result json := Ok portfolio.
Definition texts (t : Z) : string * string * list Z :=
  ("report"%string, "prices"%string, [t]).

End Strategy.

(** ** Loops *)

Lemma result_bind_Ok_inv {A C : Type} (r : result A) (k : A -> result C) (c : C) :
  (r ≫= k) = Ok c -> exists a, r = Ok a /\ k a = Ok c.
Proof. destruct r as [a|e]; simpl; [eauto | discriminate]. Qed.

Section Loops.
Context {A B : Type}.

Lemma mapM_app (f : A -> result B) (l1 l2 : list A) :
  mapM f (l1 ++ l2) = ys1 ← mapM f l1; ys2 ← mapM f l2; Ok (ys1 ++ ys2).
Proof.
  induction l1 as [|x l1 IH]; simpl.
  - destruct (mapM f l2); reflexivity.
  - destruct (f x) as [y|e]; simpl; [|reflexivity].
    rewrite IH. destruct (mapM f l1) as [ys1|e]; simpl; [|reflexivity].
    destruct (mapM f l2); reflexivity.
Qed.

Lemma mapM_fmap {C} (g : C -> A) (f : A -> result B) (l : list C) :
  mapM f (g <$> l) = mapM (fun c => f (g c)) l.
Proof.
  induction l as [|c l IH]; csimpl; [reflexivity|]. rewrite IH. reflexivity.
Qed.

Lemma mapM_Ok (f : A -> result B) (l : list A) (ys : list B) :
  mapM f l = Ok ys <-> Forall2 (fun x y => f x = Ok y) l ys.
Proof.
  revert ys. induction l as [|x l IH]; intros ys; simpl.
  - split.
    + intros [= <-]. constructor.
    + intros H. inversion H. reflexivity.
  - split.
    + intros H. apply result_bind_Ok_inv in H as (y & Hy & H).
      destruct (mapM f l) as [zs|e] eqn:E; simpl in H; [|discriminate].
      injection H as <-. constructor; [exact Hy | apply IH; reflexivity].
    + intros H. inversion H as [|? y ? zs Hy Hzs]; subst.
      rewrite Hy. simpl. apply IH in Hzs. rewrite Hzs. reflexivity.
Qed.

Lemma mapM_total (f : A -> result B) (g : A -> B) (l : list A) :
  (forall x, f x = Ok (g x)) -> mapM f l = Ok (g <$> l).
Proof.
  intros Hf. induction l as [|x l IH]; csimpl; [reflexivity|].
  rewrite Hf, IH. reflexivity.
Qed.

Lemma mapM_Err (f : A -> result B) (l : list A) (x : A) (e : exn) :
  x ∈ l -> f x = Err e -> is_Err (mapM f l).
Proof.
  induction 1 as [x l|x z l Hin IH]; intros Hx; simpl.
  - rewrite Hx. exists e. reflexivity.
  - destruct (f z) as [y|e']; simpl; [|eexists; reflexivity].
    destruct (IH Hx) as [e' ->]. eexists; reflexivity.
Qed.

Lemma enumerate_from_lookup (k : Z) (l : list A) (n : nat) :
  enumerate_from k l !! n = (fun x => (k + Z.of_nat n, x)) <$> l !! n.
Proof.
  revert k n. induction l as [|x l IH]; intros k n; [reflexivity|].
  destruct n as [|n]; simpl.
  - f_equal. f_equal. lia.
  - rewrite IH. destruct (l !! n); simpl; [|reflexivity].
    f_equal. f_equal. lia.
Qed.

Lemma elem_of_enumerate_from (k i : Z) (x : A) (l : list A) :
  (i, x) ∈ enumerate_from k l <-> exists n : nat, i = k + Z.of_nat n /\ l !! n = Some x.
Proof.
  rewrite list_elem_of_lookup. split.
  - intros [n Hn]. rewrite enumerate_from_lookup in Hn. exists n.
    destruct (l !! n); simpl in Hn; [|discriminate]. injection Hn as <- <-. auto.
  - intros (n & -> & Hn). exists n. rewrite enumerate_from_lookup, Hn. reflexivity.
Qed.

Lemma NoDup_enumerate_from (k : Z) (l : list A) : NoDup (enumerate_from k l).
Proof.
  revert k. induction l as [|x l IH]; intros k; simpl; constructor; [|apply IH].
  rewrite elem_of_enumerate_from. intros (n & Hn & _). lia.
Qed.

Lemma enumerate_from_index_inj (k : Z) (l : list A) (p q : Z * A) :
  p ∈ enumerate_from k l -> q ∈ enumerate_from k l -> p.1 = q.1 -> p = q.
Proof.
  destruct p as [i x], q as [j y]. rewrite !elem_of_enumerate_from.
  intros (n & -> & Hn) (m & -> & Hm) Heq. simpl in Heq.
  assert (n = m) as -> by lia. rewrite Hn in Hm. injection Hm as <-. reflexivity.
Qed.

End Loops.

(** ** The graph builder *)

Module UtilsTheory.
Import Utils Spec.

Lemma wanted_spec (p q : Z * Asset) :
  wanted p q = true <-> p.1 ≠ q.1 /\ linked p.2 q.2.
Proof.
  unfold wanted, linked.
  rewrite andb_true_iff, !negb_true_iff, andb_false_iff.
  rewrite !bool_decide_eq_false. split.
  - intros [H1 [H2|H2]]; (split; [exact H1|]).
    + left. destruct (decide (platform p.2 = platform q.2)); tauto.
    + right. destruct (decide (symbol p.2 = symbol q.2)); tauto.
  - intros [H1 [H2|H2]]; (split; [exact H1|]); tauto.
Qed.

Section Builder.
Variables (timestamp : Z) (exchanger : Exchanger) (timespan : Z).

Lemma inner_loop (p : Z * Asset) (ps : list (Z * Asset)) (edges_list : list Edge) :
  for_each (inner_body timestamp exchanger timespan p.1 p.2) ps edges_list
  = new ← mapM (fun q => quote_edge timestamp exchanger timespan (p, q))
               (filter (fun q => wanted p q) ps);
    Ok (edges_list ++ new).
Proof.
  revert edges_list. induction ps as [|[j b] ps IH]; intros edges_list.
  - simpl. rewrite app_nil_r. reflexivity.
  - rewrite filter_cons. cbn [for_each inner_body].
    destruct (decide (wanted p (j, b))) as [Hw|Hw].
    + apply Is_true_true in Hw. unfold wanted in Hw. cbn [fst snd] in Hw.
      apply andb_true_iff in Hw as [H1 H2].
      apply negb_true_iff in H1, H2. rewrite H1, H2.
      cbn [mapM].
      change (quote_edge timestamp exchanger timespan (p, (j, b)))
        with (exchange exchanger timestamp p.2 b timespan ≫= fun rate =>
              np_log rate ≫= fun w => Ok (mkEdge p.2 p.1 b j w)).
      destruct (exchange exchanger timestamp p.2 b timespan) as [rate|e];
        simpl; [|reflexivity].
      destruct (np_log rate) as [w|e]; simpl; [|reflexivity].
      rewrite IH.
      destruct (mapM _ _) as [new|e]; simpl; [|reflexivity].
      rewrite <- app_assoc. reflexivity.
    + apply Is_true_false in Hw. unfold wanted in Hw. cbn [fst snd] in Hw.
      apply andb_false_iff in Hw as [H1|H2].
      * apply negb_false_iff in H1. rewrite H1. simpl. apply IH.
      * apply negb_false_iff in H2. rewrite H2.
        destruct (bool_decide (p.1 = j)); simpl; apply IH.
Qed.

Lemma outer_loop (assets : list Asset) (ps : list (Z * Asset))
    (edges_list : list Edge) (nodes_mapping : gmap string Z) :
  for_each (outer_body assets timestamp exchanger timespan) ps
           (edges_list, nodes_mapping)
  = new ← mapM (quote_edge timestamp exchanger timespan)
               (p ← ps; (fun q => (p, q)) <$> filter (fun q => wanted p q) (enumerate assets));
    Ok (edges_list ++ new, mapping_of ps nodes_mapping).
Proof.
  revert edges_list nodes_mapping.
  induction ps as [|[i a] ps IH]; intros edges_list nodes_mapping.
  - simpl. rewrite app_nil_r. reflexivity.
  - cbn [for_each outer_body]. rewrite bind_cons, mapM_app, mapM_fmap.
    rewrite (inner_loop (i, a)).
    destruct (mapM _ (filter _ _)) as [row|e]; simpl; [|reflexivity].
    rewrite IH.
    destruct (mapM _ _) as [new|e]; simpl; [|reflexivity].
    rewrite <- app_assoc. reflexivity.
Qed.

(** The builder, as one pass over the kept pairs. *)
Lemma assets_to_edges_list_eq (assets : list Asset) :
  assets_to_edges_list assets timestamp exchanger timespan
  = new ← mapM (quote_edge timestamp exchanger timespan) (kept_pairs assets);
    Ok (new, mapping_of (enumerate assets) ∅).
Proof. unfold assets_to_edges_list. rewrite outer_loop. reflexivity. Qed.

End Builder.

Lemma elem_of_kept_pairs (assets : list Asset) (p q : Z * Asset) :
  (p, q) ∈ kept_pairs assets <->
  exists n m : nat, p.1 = Z.of_nat n /\ q.1 = Z.of_nat m
    /\ assets !! n = Some p.2 /\ assets !! m = Some q.2
    /\ n ≠ m /\ linked p.2 q.2.
Proof.
  unfold kept_pairs. rewrite list_elem_of_bind. split.
  - intros (p' & Hq & Hp). apply list_elem_of_fmap in Hq as (q' & [= <- <-] & Hq).
    apply list_elem_of_filter in Hq as [Hw Hq]. apply Is_true_true, wanted_spec in Hw.
    destruct p as [i a], q as [j b]. unfold enumerate in *.
    apply elem_of_enumerate_from in Hp as (n & -> & Hn).
    apply elem_of_enumerate_from in Hq as (m & -> & Hm).
    exists n, m. simpl in *. destruct Hw as [Hne Hl].
    repeat split; try done. intros ->. apply Hne. reflexivity.
  - intros (n & m & Hi & Hj & Hn & Hm & Hne & Hl).
    destruct p as [i a], q as [j b]. simpl in *. subst i j.
    exists (Z.of_nat n, a). split.
    + apply list_elem_of_fmap. exists (Z.of_nat m, b). split; [reflexivity|].
      apply list_elem_of_filter. split.
      * apply Is_true_true, wanted_spec. simpl. split; [lia | exact Hl].
      * apply elem_of_enumerate_from. exists m. auto.
    + apply elem_of_enumerate_from. exists n. auto.
Qed.

Lemma NoDup_kept_pairs (assets : list Asset) : NoDup (kept_pairs assets).
Proof.
  unfold kept_pairs. apply NoDup_bind.
  - intros p1 p2 pq _ _ H1 H2.
    apply list_elem_of_fmap in H1 as (? & -> & _).
    apply list_elem_of_fmap in H2 as (? & [= -> _] & _). reflexivity.
  - intros p _. apply NoDup_fmap_2; [intros ? ? [= ->]; reflexivity|].
    apply list.NoDup_filter, NoDup_enumerate_from.
  - apply NoDup_enumerate_from.
Qed.

(** The pairs of positions of the kept pairs are pairwise different. *)
Lemma NoDup_kept_positions (assets : list Asset) :
  NoDup ((fun pq : (Z * Asset) * (Z * Asset) => (pq.1.1, pq.2.1)) <$> kept_pairs assets).
Proof.
  apply NoDup_fmap_2_strong; [|apply NoDup_kept_pairs].
  intros [p q] [p' q'] H1 H2 [= Hp Hq]. simpl in *.
  assert (Hin : forall r s, (r, s) ∈ kept_pairs assets ->
            r ∈ enumerate assets /\ s ∈ enumerate assets).
  { intros [i a] [j b] H.
    apply elem_of_kept_pairs in H as (n & m & Hi & Hj & Hn & Hm & _).
    simpl in *. subst i j.
    split; apply elem_of_enumerate_from; eexists; (split; [|eassumption]); lia. }
  destruct (Hin _ _ H1) as [Hp1 Hq1]. destruct (Hin _ _ H2) as [Hp2 Hq2].
  f_equal; eapply enumerate_from_index_inj; eassumption.
Qed.

Section Snapshot.
Variables (timestamp : Z) (exchanger : Exchanger) (timespan : Z).

Lemma quote_edge_Ok (pq : (Z * Asset) * (Z * Asset)) (e : Edge) :
  quote_edge timestamp exchanger timespan pq = Ok e <->
  exists x, exchange exchanger timestamp pq.1.2 pq.2.2 timespan = Ok (RFloat x)
    /\ e = mkEdge pq.1.2 pq.1.1 pq.2.2 pq.2.1 (float_log x).
Proof.
  unfold quote_edge. split.
  - intros H. apply result_bind_Ok_inv in H as (rate & Hrate & H).
    destruct rate as [|x]; simpl in H; [discriminate|].
    injection H as <-. eauto.
  - intros (x & -> & ->). reflexivity.
Qed.

Lemma snapshot_Ok (assets : list Asset) (edges : list Edge) (m : gmap string Z) :
  assets_to_edges_list assets timestamp exchanger timespan = Ok (edges, m) <->
  Forall2 (fun pq e => quote_edge timestamp exchanger timespan pq = Ok e)
          (kept_pairs assets) edges
  /\ m = mapping_of (enumerate assets) ∅.
Proof.
  rewrite assets_to_edges_list_eq, <- mapM_Ok.
  destruct (mapM _ _) as [new|e]; simpl; split.
  - intros [= -> ->]. auto.
  - intros [[= ->] ->]. reflexivity.
  - discriminate.
  - intros [[=] _].
Qed.

Lemma snapshot_edges (assets : list Asset) (edges : list Edge) (m : gmap string Z) :
  assets_to_edges_list assets timestamp exchanger timespan = Ok (edges, m) ->
  (forall pq, pq ∈ kept_pairs assets ->
     exists e, e ∈ edges /\ quote_edge timestamp exchanger timespan pq = Ok e)
  /\ (forall e, e ∈ edges ->
     exists pq, pq ∈ kept_pairs assets
       /\ quote_edge timestamp exchanger timespan pq = Ok e)
  /\ ends <$> edges
     = (fun pq : (Z * Asset) * (Z * Asset) => (pq.1.1, pq.2.1)) <$> kept_pairs assets.
Proof.
  intros [HF _]%snapshot_Ok. repeat split.
  - intros pq (i & Hi)%list_elem_of_lookup.
    destruct (Forall2_lookup_l _ _ _ _ _ HF Hi) as (e & He & Hq).
    exists e. split; [|exact Hq]. apply list_elem_of_lookup. eauto.
  - intros e (i & Hi)%list_elem_of_lookup.
    destruct (Forall2_lookup_r _ _ _ _ _ HF Hi) as (pq & Hpq & Hq).
    exists pq. split; [|exact Hq]. apply list_elem_of_lookup. eauto.
  - induction HF as [|pq e ps es Hq _ IH]; csimpl; [reflexivity|].
    rewrite IH. apply quote_edge_Ok in Hq as (x & _ & ->). reflexivity.
Qed.

End Snapshot.

(** *** The dictionary of node indices *)

Lemma mapping_of_other (ps : list (Z * Asset)) (m : gmap string Z) (key : string) :
  key ∉ (fun p : Z * Asset => platform_symbol p.2) <$> ps ->
  mapping_of ps m !! key = m !! key.
Proof.
  revert m. induction ps as [|p ps IH]; intros m Hk; [reflexivity|].
  rewrite fmap_cons, not_elem_of_cons in Hk. destruct Hk as [Hne Hk].
  unfold mapping_of in *. cbn [foldl]. rewrite IH by exact Hk.
  apply lookup_insert_ne. congruence.
Qed.

Lemma mapping_of_member (ps : list (Z * Asset)) (m : gmap string Z) (p : Z * Asset) :
  NoDup ((fun p : Z * Asset => platform_symbol p.2) <$> ps) ->
  p ∈ ps -> mapping_of ps m !! platform_symbol p.2 = Some p.1.
Proof.
  revert m. induction ps as [|p0 ps IH]; intros m Hnd Hin.
  - inversion Hin.
  - rewrite fmap_cons in Hnd. apply list.NoDup_cons in Hnd as [Hfresh Hnd].
    apply elem_of_cons in Hin as [->|Hin].
    + unfold mapping_of. cbn [foldl]. fold (mapping_of ps (<[platform_symbol p0.2 := p0.1]> m)).
      rewrite mapping_of_other by exact Hfresh. apply lookup_insert_eq.
    + unfold mapping_of. cbn [foldl]. apply IH; assumption.
Qed.

Lemma mapping_of_source (ps : list (Z * Asset)) (m : gmap string Z)
    (key : string) (i : Z) :
  mapping_of ps m !! key = Some i ->
  m !! key = Some i \/ exists a, (i, a) ∈ ps /\ key = platform_symbol a.
Proof.
  revert m. induction ps as [|[j b] ps IH]; intros m H; [left; exact H|].
  unfold mapping_of in H. cbn [foldl] in H. apply IH in H as [H|(a & Ha & ->)].
  - cbn [fst snd] in H. destruct (decide (platform_symbol b = key)) as [<-|Hne].
    + rewrite lookup_insert_eq in H. injection H as <-.
      right. exists b. split; [left|reflexivity].
    + rewrite lookup_insert_ne in H by exact Hne. left. exact H.
  - right. exists a. split; [right; exact Ha|reflexivity].
Qed.

Lemma enumerate_keys (assets : list Asset) :
  (fun p : Z * Asset => platform_symbol p.2) <$> enumerate assets
  = platform_symbol <$> assets.
Proof.
  unfold enumerate. generalize 0. induction assets as [|a assets IH]; intros k;
    csimpl; [reflexivity|]. rewrite IH. reflexivity.
Qed.

End UtilsTheory.

Module UtilsClaims.
Import Utils Spec Sample UtilsTheory.

Lemma snapshot_total (assets : list Asset) (timestamp timespan : Z)
    (q : Z -> Asset -> Asset -> Z -> Qc) :
  assets_to_edges_list assets timestamp (quoting q) timespan
  = Ok ((fun pq : (Z * Asset) * (Z * Asset) =>
           mkEdge pq.1.2 pq.1.1 pq.2.2 pq.2.1
                  (float_log (q timestamp pq.1.2 pq.2.2 timespan)))
          <$> kept_pairs assets,
        mapping_of (enumerate assets) ∅).
Proof.
  rewrite assets_to_edges_list_eq.
  erewrite mapM_total; [reflexivity|]. intros pq. reflexivity.
Qed.

Example three_assets_edges :
  edges_of (assets_to_edges_list [X_BTC; X_ETH; Y_ETH] 0 (flat (Qc_of_Z 2)) 60)
  = Some [mkEdge X_BTC 0 X_ETH 1 (Ln (Qc_of_Z 2));
          mkEdge X_ETH 1 X_BTC 0 (Ln (Qc_of_Z 2));
          mkEdge X_ETH 1 Y_ETH 2 (Ln (Qc_of_Z 2));
          mkEdge Y_ETH 2 X_ETH 1 (Ln (Qc_of_Z 2))].
Proof. vm_compute. reflexivity. Qed.

Example unlinked_assets_have_no_edge :
  edges_of (assets_to_edges_list [X_BTC; Y_ETH] 0 (flat (Qc_of_Z 2)) 60) = Some [].
Proof. vm_compute. reflexivity. Qed.

(** C1. For every asset list, timestamp, timespan and quote source,
    [assets_to_edges_list] returns a list of edges holding one edge for each
    ordered pair of assets at distinct positions that share the platform or
    the symbol, its weight being [np.log] of the rate quoted for the pair; no
    two edges join the same ordered pair of positions, and every edge is one
    of those: none joins a position to itself and none joins two assets that
    differ in both platform and symbol. *)
Theorem one_edge_per_linked_pair (assets : list Asset) (timestamp timespan : Z)
    (q : Z -> Asset -> Asset -> Z -> Qc) :
  exists edges nodes_mapping,
    assets_to_edges_list assets timestamp (quoting q) timespan
      = Ok (edges, nodes_mapping)
    /\ (forall (n k : nat) a b,
          assets !! n = Some a -> assets !! k = Some b -> n ≠ k -> linked a b ->
          mkEdge a (Z.of_nat n) b (Z.of_nat k) (float_log (q timestamp a b timespan))
            ∈ edges)
    /\ NoDup (ends <$> edges)
    /\ (forall e, e ∈ edges ->
          exists n k : nat,
            from_node e = Z.of_nat n /\ to_node e = Z.of_nat k
            /\ assets !! n = Some (from_asset e) /\ assets !! k = Some (to_asset e)
            /\ n ≠ k /\ linked (from_asset e) (to_asset e)
            /\ weight e = float_log (q timestamp (from_asset e) (to_asset e) timespan)).
Proof.
  eexists _, _. split; [apply snapshot_total|]. split; [|split].
  - intros n k a b Hn Hk Hne Hl. apply list_elem_of_fmap.
    exists ((Z.of_nat n, a), (Z.of_nat k, b)). split; [reflexivity|].
    apply elem_of_kept_pairs. exists n, k. auto 10.
  - rewrite <- list_fmap_compose. apply NoDup_kept_positions.
  - intros e ([[i a] [j b]] & -> & Hpq)%list_elem_of_fmap.
    apply elem_of_kept_pairs in Hpq as (n & k & Hi & Hj & Hn & Hk & Hne & Hl).
    exists n, k. simpl in *. auto 10.
Qed.

(** C2, as the code has it.  The builder has no handling of quote gaps.  For a
    linked pair of assets at distinct positions: when the source answers with
    a float, every snapshot the builder returns holds the edge of that pair
    with weight [np.log] of the rate, whatever its sign ([-inf] for a zero
    rate, [nan] for a negative one); when the lookup raises, or the rate is
    [None], the builder raises and returns no snapshot. *)
Theorem quote_gaps_are_not_handled (assets : list Asset) (timestamp : Z)
    (exchanger : Exchanger) (timespan : Z) (n k : nat) (a b : Asset) :
  assets !! n = Some a -> assets !! k = Some b -> n ≠ k -> linked a b ->
  match exchange exchanger timestamp a b timespan with
  | Ok (RFloat x) =>
      forall edges nodes_mapping,
        assets_to_edges_list assets timestamp exchanger timespan
          = Ok (edges, nodes_mapping) ->
        mkEdge a (Z.of_nat n) b (Z.of_nat k) (float_log x) ∈ edges
        /\ (x = 0%Qc -> float_log x = NegInf)
        /\ ((x < 0)%Qc -> float_log x = NaN)
  | Ok RNone | Err _ =>
      is_Err (assets_to_edges_list assets timestamp exchanger timespan)
  end.
Proof.
  intros Hn Hk Hne Hl.
  assert (Hpq : ((Z.of_nat n, a), (Z.of_nat k, b)) ∈ kept_pairs assets).
  { apply elem_of_kept_pairs. exists n, k. auto 10. }
  assert (Hfail : forall e,
    quote_edge timestamp exchanger timespan ((Z.of_nat n, a), (Z.of_nat k, b)) = Err e ->
    is_Err (assets_to_edges_list assets timestamp exchanger timespan)).
  { intros e He. rewrite assets_to_edges_list_eq.
    destruct (mapM_Err _ _ _ _ Hpq He) as [e' ->]. exists e'. reflexivity. }
  destruct (exchange exchanger timestamp a b timespan) as [[|x]|e] eqn:Hex.
  - apply (Hfail TypeError). unfold quote_edge. simpl. rewrite Hex. reflexivity.
  - intros edges nodes_mapping H. split; [|split].
    + destruct (snapshot_edges _ _ _ _ _ _ H) as (Hall & _ & _).
      destruct (Hall _ Hpq) as (e & He & Hq).
      apply quote_edge_Ok in Hq as (x' & Hx' & ->). simpl in Hx'.
      rewrite Hex in Hx'. injection Hx' as <-. exact He.
    + intros ->. reflexivity.
    + intros Hx. unfold float_log.
      destruct (decide (0 < x)%Qc) as [Hpos|_].
      { exfalso. exact (Qclt_not_le _ _ Hpos (Qclt_le_weak _ _ Hx)). }
      destruct (decide (x = 0%Qc)) as [->|_]; [|reflexivity].
      exfalso. exact (Qclt_not_eq _ _ Hx eq_refl).
  - apply (Hfail e). unfold quote_edge. simpl. rewrite Hex. reflexivity.
Qed.

Lemma quote_gaps_are_not_handled_witness :
  [X_BTC; X_ETH] !! 0%nat = Some X_BTC /\ [X_BTC; X_ETH] !! 1%nat = Some X_ETH
  /\ 0%nat ≠ 1%nat /\ linked X_BTC X_ETH
  /\ forall edges nodes_mapping,
       assets_to_edges_list [X_BTC; X_ETH] 0 (flat 0%Qc) 60
         = Ok (edges, nodes_mapping) ->
       mkEdge X_BTC 0 X_ETH 1 (float_log 0%Qc) ∈ edges
       /\ (0%Qc = 0%Qc -> float_log 0%Qc = NegInf)
       /\ ((0 < 0)%Qc -> float_log 0%Qc = NaN).
Proof.
  split; [reflexivity|]. split; [reflexivity|]. split; [lia|].
  split; [left; reflexivity|].
  apply (quote_gaps_are_not_handled [X_BTC; X_ETH] 0 (flat 0%Qc) 60
           0%nat 1%nat X_BTC X_ETH);
    [reflexivity | reflexivity | lia | left; reflexivity].
Defined.

(** C2 fails as stated: with every rate zero the snapshot keeps both edges of
    a linked pair, their weight being [-inf]; with a source that raises, or
    one whose rates are undefined, no snapshot is returned at all. *)
Lemma quote_gaps_are_not_omitted :
  edges_of (assets_to_edges_list [X_BTC; X_ETH] 0 (flat 0%Qc) 60)
    = Some [mkEdge X_BTC 0 X_ETH 1 NegInf; mkEdge X_ETH 1 X_BTC 0 NegInf]
  /\ ¬ omits_quote_gaps [X_BTC; X_ETH] 0 (flat 0%Qc) 60
  /\ assets_to_edges_list [X_BTC; X_ETH] 0 silent 60 = Err (Raised "no quote")
  /\ ¬ omits_quote_gaps [X_BTC; X_ETH] 0 silent 60
  /\ assets_to_edges_list [X_BTC; X_ETH] 0 undefined 60 = Err TypeError
  /\ ¬ omits_quote_gaps [X_BTC; X_ETH] 0 undefined 60.
Proof.
  assert (E : edges_of (assets_to_edges_list [X_BTC; X_ETH] 0 (flat 0%Qc) 60)
    = Some [mkEdge X_BTC 0 X_ETH 1 NegInf; mkEdge X_ETH 1 X_BTC 0 NegInf])
    by (vm_compute; reflexivity).
  assert (S : assets_to_edges_list [X_BTC; X_ETH] 0 silent 60 = Err (Raised "no quote"))
    by (vm_compute; reflexivity).
  assert (U : assets_to_edges_list [X_BTC; X_ETH] 0 undefined 60 = Err TypeError)
    by (vm_compute; reflexivity).
  repeat split; try assumption.
  - intros (edges & m & H & Hall). rewrite H in E. injection E as ->.
    destruct (Hall 0%nat 1%nat X_BTC X_ETH) as [Hgap _];
      [reflexivity | reflexivity | lia | left; reflexivity|].
    apply (Hgap (Qcle_refl 0) (mkEdge X_BTC 0 X_ETH 1 NegInf)); [left|reflexivity].
  - intros (edges & m & H & _). rewrite S in H. discriminate.
  - intros (edges & m & H & _). rewrite U in H. discriminate.
Qed.

(** C3. When the [platform_symbol] keys of the assets are pairwise distinct,
    the builder returns for every source that answers, and in whatever it
    returns the node mapping sends the key of each asset to the position of
    that asset in the list, holds no other key, and every edge carries the
    positions of its two assets as [from_node] and [to_node]. *)
Theorem nodes_are_positions (assets : list Asset) (timestamp timespan : Z) :
  NoDup (platform_symbol <$> assets) ->
  (forall q, is_Ok (assets_to_edges_list assets timestamp (quoting q) timespan))
  /\ forall exchanger edges nodes_mapping,
      assets_to_edges_list assets timestamp exchanger timespan
        = Ok (edges, nodes_mapping) ->
      (forall (n : nat) a, assets !! n = Some a ->
         nodes_mapping !! platform_symbol a = Some (Z.of_nat n))
      /\ (forall key i, nodes_mapping !! key = Some i ->
           exists (n : nat) a,
             i = Z.of_nat n /\ assets !! n = Some a /\ key = platform_symbol a)
      /\ (forall e, e ∈ edges ->
           exists n k : nat,
             from_node e = Z.of_nat n /\ to_node e = Z.of_nat k
             /\ assets !! n = Some (from_asset e)
             /\ assets !! k = Some (to_asset e)).
Proof.
  intros Hnd. split.
  { intros q. eexists. apply snapshot_total. }
  intros exchanger edges nodes_mapping H.
  pose proof (snapshot_edges _ _ _ _ _ _ H) as (_ & Hback & _).
  apply snapshot_Ok in H as [_ ->]. split; [|split].
  - intros n a Hn.
    apply (mapping_of_member (enumerate assets) ∅ (Z.of_nat n, a)).
    + rewrite enumerate_keys. exact Hnd.
    + apply elem_of_enumerate_from. exists n. auto.
  - intros key i Hi. apply mapping_of_source in Hi as [Hi|(a & Ha & ->)].
    + rewrite lookup_empty in Hi. discriminate.
    + apply elem_of_enumerate_from in Ha as (n & -> & Hn). exists n, a. auto.
  - intros e He. destruct (Hback e He) as ([[i a] [j b]] & Hpq & Hq).
    apply quote_edge_Ok in Hq as (x & _ & ->).
    apply elem_of_kept_pairs in Hpq as (n & k & Hi & Hj & Hn & Hk & _).
    exists n, k. simpl in *. auto.
Qed.

Lemma nodes_are_positions_witness :
  NoDup (platform_symbol <$> [X_BTC; X_ETH; Y_ETH])
  /\ ((forall q, is_Ok (assets_to_edges_list [X_BTC; X_ETH; Y_ETH] 0 (quoting q) 60))
      /\ forall exchanger edges nodes_mapping,
          assets_to_edges_list [X_BTC; X_ETH; Y_ETH] 0 exchanger 60
            = Ok (edges, nodes_mapping) ->
          (forall (n : nat) a, [X_BTC; X_ETH; Y_ETH] !! n = Some a ->
             nodes_mapping !! platform_symbol a = Some (Z.of_nat n))
          /\ (forall key i, nodes_mapping !! key = Some i ->
               exists (n : nat) a,
                 i = Z.of_nat n /\ [X_BTC; X_ETH; Y_ETH] !! n = Some a
                 /\ key = platform_symbol a)
          /\ (forall e, e ∈ edges ->
               exists n k : nat,
                 from_node e = Z.of_nat n /\ to_node e = Z.of_nat k
                 /\ [X_BTC; X_ETH; Y_ETH] !! n = Some (from_asset e)
                 /\ [X_BTC; X_ETH; Y_ETH] !! k = Some (to_asset e))).
Proof.
  assert (Hnd : NoDup (platform_symbol <$> [X_BTC; X_ETH; Y_ETH])).
  { compute_done. }
  split; [exact Hnd|].
  exact (nodes_are_positions [X_BTC; X_ETH; Y_ETH] 0 60 Hnd).
Defined.

(** *** [nodes_to_assets] *)

Lemma py_index_lookup {A : Type} (l : list A) (i : Z) (x : A) :
  0 <= i -> l !! Z.to_nat i = Some x -> py_index l i = Ok x.
Proof.
  intros Hi Hx. unfold py_index.
  apply lookup_lt_Some in Hx as Hlt.
  destruct (Z.ltb_spec i 0) as [?|_]; [lia|].
  destruct (Z.leb_spec 0 i) as [_|?]; [|lia].
  destruct (Z.ltb_spec i (Z.of_nat (length l))) as [_|?]; [|lia].
  simpl. rewrite Hx. reflexivity.
Qed.

Lemma nodes_to_assets_loop (assets : list Asset) (nodes : list Z) (acc : list Asset) :
  Forall (fun node => 0 <= node < Z.of_nat (length assets)) nodes ->
  exists res,
    for_each (fun result node => a ← py_index assets node; Ok (result ++ [a]))
             nodes acc = Ok (acc ++ res)
    /\ Forall2 (fun node a => assets !! Z.to_nat node = Some a) nodes res.
Proof.
  intros H. revert acc. induction H as [|node nodes [Hlo Hhi] _ IH]; intros acc.
  - exists []. rewrite app_nil_r. split; [reflexivity|constructor].
  - destruct (lookup_lt_is_Some_2 assets (Z.to_nat node)) as [a Ha]; [lia|].
    destruct (IH (acc ++ [a])) as (res & Hres & HF).
    exists (a :: res). split.
    + cbn [for_each]. rewrite (py_index_lookup _ _ _ Hlo Ha). simpl.
      rewrite Hres, <- app_assoc. reflexivity.
    + constructor; assumption.
Qed.

Example nodes_to_assets_wraps_negative_indices :
  nodes_to_assets [-1] [X_BTC; X_ETH] = Ok [X_ETH]
  /\ nodes_to_assets [2] [X_BTC; X_ETH] = Err IndexError
  /\ nodes_to_assets [-3] [X_BTC; X_ETH] = Err IndexError.
Proof. repeat split. Qed.

(** C10. For node indices that are positions of the asset list,
    [nodes_to_assets] returns a list as long as [nodes] whose [i]-th element is
    the asset at position [nodes[i]]; so for every edge of a snapshot built
    from that asset list, [nodes_to_assets [from_node, to_node]] gives back
    [[from_asset, to_asset]]. *)
Theorem nodes_to_assets_positions (nodes : list Z) (assets : list Asset) :
  Forall (fun node => 0 <= node < Z.of_nat (length assets)) nodes ->
  (exists res,
     nodes_to_assets nodes assets = Ok res
     /\ length res = length nodes
     /\ forall (i : nat) node, nodes !! i = Some node ->
          res !! i = assets !! Z.to_nat node)
  /\ forall timestamp exchanger timespan edges nodes_mapping,
      assets_to_edges_list assets timestamp exchanger timespan
        = Ok (edges, nodes_mapping) ->
      forall e, e ∈ edges ->
        nodes_to_assets [from_node e; to_node e] assets
        = Ok [from_asset e; to_asset e].
Proof.
  intros H. split.
  - destruct (nodes_to_assets_loop assets nodes [] H) as (res & Hres & HF).
    exists res. split; [exact Hres|]. split.
    + symmetry. eapply Forall2_length, HF.
    + intros i node Hi.
      destruct (Forall2_lookup_l _ _ _ _ _ HF Hi) as (a & -> & Ha).
      symmetry. exact Ha.
  - intros timestamp exchanger timespan edges nodes_mapping Hs e He.
    destruct (snapshot_edges _ _ _ _ _ _ Hs) as (_ & Hback & _).
    destruct (Hback e He) as ([[i a] [j b]] & Hpq & Hq).
    apply quote_edge_Ok in Hq as (x & _ & ->).
    apply elem_of_kept_pairs in Hpq as (n & k & Hi & Hj & Hn & Hk & _).
    simpl in *. subst i j. unfold nodes_to_assets. cbn [for_each].
    rewrite (py_index_lookup assets (Z.of_nat n) a), (py_index_lookup assets (Z.of_nat k) b);
      rewrite ?Nat2Z.id; try assumption; try lia.
    reflexivity.
Qed.

Lemma nodes_to_assets_positions_witness :
  Forall (fun node => 0 <= node < Z.of_nat (length [X_BTC; X_ETH; Y_ETH])) [2; 0]
  /\ ((exists res,
         nodes_to_assets [2; 0] [X_BTC; X_ETH; Y_ETH] = Ok res
         /\ length res = length [2; 0]
         /\ forall (i : nat) node, [2; 0] !! i = Some node ->
              res !! i = [X_BTC; X_ETH; Y_ETH] !! Z.to_nat node)
      /\ forall timestamp exchanger timespan edges nodes_mapping,
          assets_to_edges_list [X_BTC; X_ETH; Y_ETH] timestamp exchanger timespan
            = Ok (edges, nodes_mapping) ->
          forall e, e ∈ edges ->
            nodes_to_assets [from_node e; to_node e] [X_BTC; X_ETH; Y_ETH]
            = Ok [from_asset e; to_asset e]).
Proof.
  assert (H : Forall (fun node => 0 <= node < Z.of_nat (length [X_BTC; X_ETH; Y_ETH]))
                     [2; 0]).
  { repeat constructor; simpl; lia. }
  split; [exact H|].
  exact (nodes_to_assets_positions [2; 0] [X_BTC; X_ETH; Y_ETH] H).
Defined.

End UtilsClaims.

(** ** The progress cache *)

Module DashboardTheory.
Import Dashboard DashSpec.


Lemma hundred_pos : (0 < hundred)%Qc.
Proof. compute_done. Qed.

Section Formula.
Variables start_timestamp end_timestamp : Z.
Hypothesis range : start_timestamp < end_timestamp.

Lemma span_pos : (0 < Qc_of_Z (end_timestamp - start_timestamp))%Qc.
Proof. rewrite <- Z2Qc_inj_0. apply (proj1 (Z2Qc_inj_lt _ _)). lia. Qed.

Lemma span_neq_0 : Qc_of_Z (end_timestamp - start_timestamp) ≠ 0%Qc.
Proof. intros H. pose proof span_pos as Hp. rewrite H in Hp. exact (Qclt_not_eq _ _ Hp eq_refl). Qed.

Lemma formula_mono (t t' : Z) :
  t <= t' ->
  (progress_formula start_timestamp end_timestamp t
   ≤ progress_formula start_timestamp end_timestamp t')%Qc.
Proof.
  intros Ht. unfold progress_formula, Qcdiv.
  apply Qcmult_le_mono_nonneg_r; [apply Qclt_le_weak, hundred_pos|].
  apply Qcmult_le_mono_nonneg_r; [apply Qclt_le_weak, Qcinv_pos, span_pos|].
  apply (proj1 (Z2Qc_inj_le _ _)). lia.
Qed.

Lemma formula_at_end :
  progress_formula start_timestamp end_timestamp end_timestamp = hundred.
Proof.
  unfold progress_formula, Qcdiv.
  rewrite Qcmult_inv_r by exact span_neq_0. apply Qcmult_1_l.
Qed.

Lemma formula_at_start :
  progress_formula start_timestamp end_timestamp start_timestamp = 0%Qc.
Proof.
  unfold progress_formula, Qcdiv. rewrite Z.sub_diag, Z2Qc_inj_0.
  rewrite !Qcmult_0_l. reflexivity.
Qed.


Lemma formula_nonneg (t : Z) :
  start_timestamp <= t ->
  (0 ≤ progress_formula start_timestamp end_timestamp t)%Qc.
Proof.
  intros Ht. rewrite <- formula_at_start. apply formula_mono. exact Ht.
Qed.

Lemma formula_le_100 (t : Z) :
  t <= end_timestamp ->
  (progress_formula start_timestamp end_timestamp t ≤ hundred)%Qc.
Proof.
  intros Ht. rewrite <- formula_at_end. apply formula_mono. exact Ht.
Qed.

End Formula.

Lemma py_min_le (x : Qc) : (py_min x hundred ≤ hundred)%Qc.
Proof.
  unfold py_min. destruct (decide (hundred < x)%Qc) as [_|H].
  - apply Qcle_refl.
  - apply Qcnot_lt_le. exact H.
Qed.

Lemma py_min_clamp (x : Qc) : (0 ≤ x)%Qc -> py_min x hundred = clamp x.
Proof.
  intros Hx. unfold py_min, clamp.
  destruct (decide (x < 0)%Qc) as [Hneg|_].
  - exfalso. exact (Qclt_not_le _ _ Hneg Hx).
  - reflexivity.
Qed.

Lemma clamp_id (x : Qc) : (0 ≤ x)%Qc -> (x ≤ hundred)%Qc -> clamp x = x.
Proof.
  intros H0 H1. unfold clamp.
  destruct (decide (x < 0)%Qc) as [Hneg|_].
  { exfalso. exact (Qclt_not_le _ _ Hneg H0). }
  destruct (decide (hundred < x)%Qc) as [Hbig|_]; [|reflexivity].
  exfalso. exact (Qclt_not_le _ _ Hbig H1).
Qed.

Section Store.
Context {Report Prices Graph : Type}.
Abbreviation store := (gmap string (pyval Report Prices Graph)).
Abbreviation RunRes := (RunRes Report Prices Graph).


Lemma reset_cache_eq (fsc : store) :
  reset_cache fsc
  = (Ok tt, <["graphs_history" := fsc_get "graphs_history" fsc]>
              (<["run_progress" := PyNone]> (<["report_table" := PyNone]> ∅))).
Proof. reflexivity. Qed.

Lemma get_reset (key : string) (fsc : store) :
  fsc_get key (reset_cache fsc).2
  = if decide (key = "graphs_history") then fsc_get "graphs_history" fsc else PyNone.
Proof.
  rewrite reset_cache_eq. unfold fsc_get at 1. cbn [snd].
  destruct (decide (key = "graphs_history")) as [->|Hk].
  - rewrite lookup_insert_eq. reflexivity.
  - rewrite lookup_insert_ne by congruence.
    destruct (decide (key = "run_progress")) as [->|Hk'].
    + rewrite lookup_insert_eq. reflexivity.
    + rewrite lookup_insert_ne by congruence.
      destruct (decide (key = "report_table")) as [->|Hk''].
      * rewrite lookup_insert_eq. reflexivity.
      * rewrite lookup_insert_ne by congruence. reflexivity.
Qed.

Lemma reset_reset (fsc : store) : reset_cache (reset_cache fsc).2 = reset_cache fsc.
Proof.
  rewrite (reset_cache_eq (reset_cache fsc).2), get_reset.
  rewrite decide_True by reflexivity. reflexivity.
Qed.

Lemma run_progress_Ok (start_timestamp end_timestamp : Z) (run_res : RunRes) :
  end_timestamp ≠ start_timestamp ->
  run_progress start_timestamp end_timestamp run_res
  = Ok (progress_formula start_timestamp end_timestamp (res_end_timestamp run_res)).
Proof.
  intros H. unfold run_progress, py_truediv.
  rewrite bool_decide_eq_false_2 by lia. reflexivity.
Qed.

Lemma run_progress_zero_span (start_timestamp : Z) (run_res : RunRes) :
  run_progress start_timestamp start_timestamp run_res = Err ZeroDivisionError.
Proof.
  unfold run_progress, py_truediv.
  rewrite bool_decide_eq_true_2 by lia. reflexivity.
Qed.

Lemma loop_body_eq (start_timestamp end_timestamp : Z) (l : locals)
    (run_res : RunRes) (fsc : store) :
  loop_body start_timestamp end_timestamp l run_res fsc
  = match run_progress start_timestamp end_timestamp run_res with
    | Ok v => (Ok (Some (report run_res), Some (prices run_res), graphs_history run_res),
               <["run_progress" := PyFloat v]> (step_writes run_res fsc))
    | Err e => (Err e, step_writes run_res fsc)
    end.
Proof.
  unfold loop_body, bind, set, lift, ret, fsc_set, step_writes.
  destruct (run_progress _ _ _); reflexivity.
Qed.


Lemma loop_Ok (start_timestamp end_timestamp : Z) (rs : list RunRes)
    (l : locals) (fsc : store) :
  end_timestamp ≠ start_timestamp ->
  is_Ok (loop start_timestamp end_timestamp rs l fsc).1.
Proof.
  intros H. revert l fsc. induction rs as [|r rs IH]; intros l fsc.
  - eexists. reflexivity.
  - cbn [loop]. unfold bind at 1.
    rewrite loop_body_eq, run_progress_Ok by exact H. apply IH.
Qed.

Section Request.
Context {Portfolio : Type}.
Variables (json_loads : string -> result Portfolio)
          (strategy : Z -> Z -> Z -> Portfolio -> generator Report Prices Graph).

Lemma update_report_state_rejected (n : Z) (json_portfolio : string)
    (start_timestamp end_timestamp primary_granularity : Z) (fsc : store) (e : exn) :
  json_loads json_portfolio = Err e ->
  update_report_state json_loads strategy (Some n) json_portfolio
    start_timestamp end_timestamp primary_granularity fsc
  = (Err e, (reset_cache fsc).2).
Proof.
  intros He. unfold update_report_state, bind at 1.
  rewrite reset_cache_eq. unfold run_strategy, bind at 1, lift.
  rewrite He. reflexivity.
Qed.

Lemma update_report_state_zero_span (n : Z) (json_portfolio : string)
    (start_timestamp primary_granularity : Z) (fsc : store)
    (portfolio : Portfolio) (r : RunRes) (rs : list RunRes) :
  json_loads json_portfolio = Ok portfolio ->
  yielded (strategy start_timestamp start_timestamp primary_granularity portfolio)
    = r :: rs ->
  update_report_state json_loads strategy (Some n) json_portfolio
    start_timestamp start_timestamp primary_granularity fsc
  = (Err ZeroDivisionError, step_writes r (reset_cache fsc).2).
Proof.
  intros Hp Hy. unfold update_report_state, bind at 1.
  rewrite reset_cache_eq. unfold run_strategy, bind at 1, lift. rewrite Hp.
  unfold bind at 1, iterate, bind at 1. rewrite Hy. cbn [loop].
  unfold bind at 1. rewrite loop_body_eq, run_progress_zero_span. reflexivity.
Qed.

Lemma update_report_state_refused (n : Z) (json_portfolio : string)
    (start_timestamp end_timestamp primary_granularity : Z) (fsc : store)
    (portfolio : Portfolio) (e : exn) :
  json_loads json_portfolio = Ok portfolio ->
  strategy start_timestamp end_timestamp primary_granularity portfolio
    = mkGenerator [] (Some e) ->
  update_report_state json_loads strategy (Some n) json_portfolio
    start_timestamp end_timestamp primary_granularity fsc
  = (Err e, (reset_cache fsc).2).
Proof.
  intros Hp Hg. unfold update_report_state, bind at 1.
  rewrite reset_cache_eq. unfold run_strategy, bind at 1, lift. rewrite Hp.
  unfold bind at 1, iterate, bind at 1. rewrite Hg. reflexivity.
Qed.

End Request.

Section Poller.
Context {Html : Type} (create_progress_bar : Qc -> Html).

Lemma update_run_progress_None (fsc : store) :
  fsc_get "run_progress" fsc = PyNone ->
  update_run_progress create_progress_bar fsc
  = (Ok (create_progress_bar 0%Qc), (reset_cache fsc).2).
Proof.
  intros H. unfold update_run_progress, bind at 1, get. rewrite H. reflexivity.
Qed.

Lemma update_run_progress_Float (fsc : store) (x : Qc) :
  fsc_get "run_progress" fsc = PyFloat x ->
  update_run_progress create_progress_bar fsc
  = (Ok (create_progress_bar (py_min x hundred)),
     if decide (py_min x hundred = hundred) then (reset_cache fsc).2 else fsc).
Proof.
  intros H. unfold update_run_progress, bind at 1, get. rewrite H.
  destruct (decide (py_min x hundred = hundred)); reflexivity.
Qed.

End Poller.

End Store.

End DashboardTheory.

Module DashboardClaims.
Import Dashboard DashSpec Sample DashboardTheory.

Lemma clamp_bounds (x : Qc) : (0 ≤ clamp x)%Qc /\ (clamp x ≤ hundred)%Qc.
Proof.
  unfold clamp. destruct (decide (x < 0)%Qc) as [Hneg|Hneg].
  - split; [apply Qcle_refl|apply Qclt_le_weak, hundred_pos].
  - apply Qcnot_lt_le in Hneg.
    destruct (decide (hundred < x)%Qc) as [Hbig|Hbig].
    + split; [apply Qclt_le_weak, hundred_pos|apply Qcle_refl].
    + split; [exact Hneg|apply Qcnot_lt_le, Hbig].
Qed.

Section Claims.
Context {Report Prices Graph Portfolio Html : Type}.
Abbreviation store := (gmap string (pyval Report Prices Graph)).
Abbreviation RunRes := (RunRes Report Prices Graph).

(** What a step leaves and the poller shows.  At a step with timestamp [t]
    of a run whose end differs from its start, the value stored as
    [run_progress] is [(t − start) / (end − start) × 100]; the poller shows
    the minimum of that value and 100.  When [start < end] and [start ≤ t]
    the value shown is the formula clamped to [[0, 100]], and when moreover
    [t ≤ end] so is the value stored. *)
Lemma step_publishes_the_ratio (create_progress_bar : Qc -> Html)
    (start_timestamp end_timestamp : Z) (run_res : RunRes) (l : locals)
    (fsc : store) :
  end_timestamp ≠ start_timestamp ->
  exists l' fsc',
    loop_body start_timestamp end_timestamp l run_res fsc = (Ok l', fsc')
    /\ fsc_get "run_progress" fsc'
       = PyFloat (progress_formula start_timestamp end_timestamp
                                   (res_end_timestamp run_res))
    /\ (update_run_progress create_progress_bar fsc').1
       = Ok (create_progress_bar
               (py_min (progress_formula start_timestamp end_timestamp
                                         (res_end_timestamp run_res)) hundred))
    /\ (py_min (progress_formula start_timestamp end_timestamp
                                 (res_end_timestamp run_res)) hundred ≤ hundred)%Qc
    /\ (start_timestamp < end_timestamp ->
        start_timestamp <= res_end_timestamp run_res ->
        py_min (progress_formula start_timestamp end_timestamp
                                 (res_end_timestamp run_res)) hundred
        = clamp (progress_formula start_timestamp end_timestamp
                                  (res_end_timestamp run_res)))
    /\ (start_timestamp < end_timestamp ->
        start_timestamp <= res_end_timestamp run_res <= end_timestamp ->
        progress_formula start_timestamp end_timestamp (res_end_timestamp run_res)
        = clamp (progress_formula start_timestamp end_timestamp
                                  (res_end_timestamp run_res))).
Proof.
  intros Hne. eexists _, _. split.
  { rewrite loop_body_eq, run_progress_Ok by exact Hne. reflexivity. }
  assert (Hget : forall fsc0 : store, forall v,
            fsc_get "run_progress" (<["run_progress" := v]> fsc0) = v).
  { intros fsc0 v. unfold fsc_get. rewrite lookup_insert_eq. reflexivity. }
  split; [apply Hget|]. split.
  { rewrite (update_run_progress_Float _ _ _ (Hget _ _)). reflexivity. }
  split; [apply py_min_le|]. split.
  - intros Hlt Ht. apply py_min_clamp, formula_nonneg; assumption.
  - intros Hlt [Ht Ht']. symmetry. apply clamp_id.
    + apply formula_nonneg; assumption.
    + apply formula_le_100; assumption.
Qed.

(** C4. At every step of a run from [start] to [end], [start] being before
    [end] and the step's timestamp [t] lying between the two, the value
    published to the progress sink is [(t − start) / (end − start) × 100]
    clamped to [[0, 100]], and that is the value the poller shows; it is
    never below 0 and never above 100. *)
Theorem progress_is_the_clamped_ratio (create_progress_bar : Qc -> Html)
    (start_timestamp end_timestamp : Z) (run_res : RunRes) (l : locals)
    (fsc : store) :
  start_timestamp < end_timestamp ->
  start_timestamp <= res_end_timestamp run_res <= end_timestamp ->
  exists l' fsc',
    loop_body start_timestamp end_timestamp l run_res fsc = (Ok l', fsc')
    /\ fsc_get "run_progress" fsc'
       = PyFloat (clamp (progress_formula start_timestamp end_timestamp
                                          (res_end_timestamp run_res)))
    /\ (update_run_progress create_progress_bar fsc').1
       = Ok (create_progress_bar
               (clamp (progress_formula start_timestamp end_timestamp
                                        (res_end_timestamp run_res))))
    /\ (0 ≤ clamp (progress_formula start_timestamp end_timestamp
                                    (res_end_timestamp run_res)))%Qc
    /\ (clamp (progress_formula start_timestamp end_timestamp
                                (res_end_timestamp run_res)) ≤ hundred)%Qc.
Proof.
  intros Hlt Ht.
  destruct (step_publishes_the_ratio create_progress_bar start_timestamp
              end_timestamp run_res l fsc) as (l' & fsc' & Hb & Hp & Hs & _ & Hc & Hid);
    [lia|].
  exists l', fsc'. split; [exact Hb|].
  rewrite <- (Hid Hlt Ht) at 1. split; [exact Hp|]. split.
  - rewrite Hs, (Hc Hlt (proj1 Ht)). reflexivity.
  - apply clamp_bounds.
Qed.


(** C7, as the code has it.  A new run starts from the store as
    [reset_cache] leaves it: the report table, the run progress and the
    prices read [None], as does every other key, but the graphs history is
    read back before the store is cleared and stored again, so it is kept.
    On a store where every read misses the reset changes no read. *)
Theorem new_run_keeps_graphs_history
    (json_loads : string -> result Portfolio)
    (strategy : Z -> Z -> Z -> Portfolio -> generator Report Prices Graph)
    (n : Z) (json_portfolio : string)
    (start_timestamp end_timestamp primary_granularity : Z) (fsc : store) :
  update_report_state json_loads strategy (Some n) json_portfolio
    start_timestamp end_timestamp primary_granularity fsc
  = run_strategy json_loads strategy json_portfolio
      start_timestamp end_timestamp primary_granularity (reset_cache fsc).2
  /\ fsc_get "report_table" (reset_cache fsc).2 = PyNone
  /\ fsc_get "run_progress" (reset_cache fsc).2 = PyNone
  /\ fsc_get "prices" (reset_cache fsc).2 = PyNone
  /\ (forall key, key ≠ "graphs_history" -> fsc_get key (reset_cache fsc).2 = PyNone)
  /\ fsc_get "graphs_history" (reset_cache fsc).2 = fsc_get "graphs_history" fsc
  /\ (cache_empty fsc -> forall key, fsc_get key (reset_cache fsc).2 = fsc_get key fsc).
Proof.
  split; [reflexivity|].
  split; [rewrite get_reset; reflexivity|].
  split; [rewrite get_reset; reflexivity|].
  split; [rewrite get_reset; reflexivity|].
  split; [intros key Hk; rewrite get_reset, decide_False by exact Hk; reflexivity|].
  split; [rewrite get_reset; reflexivity|].
  intros He key. rewrite get_reset, !He. destruct (decide _); reflexivity.
Qed.

(** C8.  [reset_cache] never raises; applying it twice in succession leaves
    the store that applying it once leaves; on a store where every read
    misses (an empty one, or one just cleared) every read still misses
    afterwards. *)
Theorem reset_cache_idempotent (fsc : store) :
  (reset_cache fsc).1 = Ok tt
  /\ bind reset_cache (fun _ => reset_cache) fsc = reset_cache fsc
  /\ (cache_empty fsc -> cache_empty (reset_cache fsc).2)
  /\ cache_empty (reset_cache (∅ : store)).2
  /\ cache_empty (reset_cache (fsc_clear fsc)).2.
Proof.
  assert (Hempty : forall c : store, cache_empty c -> cache_empty (reset_cache c).2).
  { intros c Hc key. rewrite get_reset, Hc. destruct (decide _); reflexivity. }
  assert (H0 : cache_empty (∅ : store)).
  { intros key. unfold fsc_get. rewrite lookup_empty. reflexivity. }
  split; [reflexivity|]. split; [|split; [apply Hempty|split]].
  - unfold bind. rewrite <- (reset_reset fsc) at 2.
    rewrite (reset_cache_eq fsc). reflexivity.
  - apply Hempty, H0.
  - apply Hempty, H0.
Qed.

(** C9, as the code has it.  The poller answers a store without
    [run_progress] and a store whose [run_progress] is 0 with the same
    progress bar, the one for 0; the two reads differ only in what they leave
    behind, the first resetting the store and the second leaving it as it
    was. *)
Theorem empty_reads_as_zero (create_progress_bar : Qc -> Html)
    (fsc_empty fsc_zero : store) :
  fsc_get "run_progress" fsc_empty = PyNone ->
  fsc_get "run_progress" fsc_zero = PyFloat 0%Qc ->
  (update_run_progress create_progress_bar fsc_empty).1
  = (update_run_progress create_progress_bar fsc_zero).1
  /\ (update_run_progress create_progress_bar fsc_empty).1
     = Ok (create_progress_bar 0%Qc)
  /\ (update_run_progress create_progress_bar fsc_empty).2 = (reset_cache fsc_empty).2
  /\ (update_run_progress create_progress_bar fsc_zero).2 = fsc_zero.
Proof.
  intros He Hz.
  rewrite (update_run_progress_None _ _ He), (update_run_progress_Float _ _ _ Hz).
  repeat split.
Qed.

End Claims.

(** *** Runs of the strategy *)


Lemma steps_from_range (fuel : nat) (t end_timestamp granularity : Z) :
  0 < granularity ->
  Forall (fun x => Z.min t end_timestamp <= x <= end_timestamp)
         (Strategy.steps_from fuel t end_timestamp granularity).
Proof.
  intros Hg. revert t. induction fuel as [|fuel IH]; intros t.
  - repeat constructor; lia.
  - cbn [Strategy.steps_from]. destruct (Z.leb_spec end_timestamp t).
    + repeat constructor; lia.
    + constructor; [lia|].
      eapply Forall_impl; [apply (IH (t + granularity))|]. intros x Hx. simpl in Hx. lia.
Qed.



Example steps_of_the_scenario :
  Strategy.step_timestamps 0 100 25 = [0; 25; 50; 75; 100]
  /\ Strategy.step_timestamps 0 100 30 = [0; 30; 60; 90; 100].
Proof. split; reflexivity. Qed.

Section Runs.
Context {Report Prices Graph : Type}.
Variable outcome : Z -> Report * Prices * list Graph.
Abbreviation store := (gmap string (pyval Report Prices Graph)).


Lemma strategy_refuses (start_timestamp end_timestamp primary_granularity : Z)
    (portfolio : Strategy.json) :
  end_timestamp <= start_timestamp \/ Strategy.valid_portfolio portfolio = false ->
  Strategy.strategy outcome start_timestamp end_timestamp primary_granularity portfolio
  = mkGenerator [] (Some Strategy.ValidationError).
Proof.
  intros H. unfold Strategy.strategy. destruct H as [H|H].
  - rewrite (bool_decide_eq_false_2 (start_timestamp < end_timestamp)) by lia.
    reflexivity.
  - rewrite H, andb_false_r. reflexivity.
Qed.

(** The steps of the strategy are steps of a run from [start] to [end]. *)
Lemma strategy_steps_in_range
    (start_timestamp end_timestamp primary_granularity : Z)
    (portfolio : Strategy.json) (r : RunRes Report Prices Graph) :
  r ∈ yielded (Strategy.strategy outcome start_timestamp end_timestamp
                 primary_granularity portfolio) ->
  start_timestamp < end_timestamp
  /\ start_timestamp <= res_end_timestamp r <= end_timestamp.
Proof.
  unfold Strategy.strategy.
  destruct (bool_decide (start_timestamp < end_timestamp)) eqn:Hlt; [|inversion 1].
  destruct (bool_decide (0 < primary_granularity)) eqn:Hg; [|inversion 1].
  destruct (Strategy.valid_portfolio portfolio); [|inversion 1].
  apply bool_decide_eq_true_1 in Hlt, Hg. cbn [andb yielded].
  intros (t & -> & Ht)%list_elem_of_fmap. split; [exact Hlt|].
  pose proof (steps_from_range (Z.to_nat (end_timestamp - start_timestamp))
                start_timestamp end_timestamp primary_granularity Hg) as HF.
  rewrite Forall_forall in HF. apply HF in Ht. cbn. lia.
Qed.


(** C6. For every run request whose end timestamp is not strictly greater
    than its start timestamp, or whose portfolio is malformed (a text that
    [json.loads] rejects, or a decoded portfolio that is not valid), the run
    fails before any step executes and before any run state is published:
    the callback raises, the error being the one of [json.loads] or the
    validation error of the strategy, the strategy yields no step, and the
    store is as the reset left it. *)
Theorem bad_request_fails_before_any_step
    (json_loads : string -> result Strategy.json)
    (n : Z) (json_portfolio : string)
    (start_timestamp end_timestamp primary_granularity : Z) (fsc : store) :
  end_timestamp <= start_timestamp
  \/ (exists e, json_loads json_portfolio = Err e)
  \/ (exists portfolio, json_loads json_portfolio = Ok portfolio
                         /\ Strategy.valid_portfolio portfolio = false) ->
  fails_fast (update_report_state json_loads (Strategy.strategy outcome) (Some n)
                json_portfolio start_timestamp end_timestamp primary_granularity fsc)
             fsc
  /\ (exists e,
        update_report_state json_loads (Strategy.strategy outcome) (Some n)
          json_portfolio start_timestamp end_timestamp primary_granularity fsc
        = (Err e, (reset_cache fsc).2)
        /\ (json_loads json_portfolio = Err e \/ e = Strategy.ValidationError))
  /\ (forall portfolio, json_loads json_portfolio = Ok portfolio ->
        yielded (Strategy.strategy outcome start_timestamp end_timestamp
                   primary_granularity portfolio) = []).
Proof.
  intros Hbad.
  assert (Hout : exists e,
    update_report_state json_loads (Strategy.strategy outcome) (Some n)
      json_portfolio start_timestamp end_timestamp primary_granularity fsc
    = (Err e, (reset_cache fsc).2)
    /\ (json_loads json_portfolio = Err e \/ e = Strategy.ValidationError)).
  { destruct (json_loads json_portfolio) as [portfolio|e] eqn:Hj.
    - exists Strategy.ValidationError. split; [|right; reflexivity].
      apply (update_report_state_refused _ _ _ _ _ _ _ _ portfolio); [exact Hj|].
      apply strategy_refuses.
      destruct Hbad as [H|[[e He]|(p & Hp & Hv)]]; [left; exact H|discriminate|].
      injection Hp as ->. right. exact Hv.
    - exists e. split; [|left; reflexivity].
      apply update_report_state_rejected. exact Hj. }
  split; [|split; [exact Hout|]].
  - destruct Hout as (e & -> & _). split; [exists e; reflexivity|reflexivity].
  - intros portfolio Hj. rewrite strategy_refuses; [reflexivity|].
    destruct Hbad as [H|[[e He]|(p & Hp & Hv)]]; [left; exact H|congruence|].
    rewrite Hj in Hp. injection Hp as ->. right. exact Hv.
Qed.

End Runs.

(** *** The claims at sample runs *)

Abbreviation sample_store := (gmap string (pyval string string Z)).

Lemma progress_is_the_clamped_ratio_witness :
  0 < 100
  /\ 0 <= res_end_timestamp (res_at 50) <= 100
  /\ exists l' fsc',
      loop_body 0 100 no_locals (res_at 50) (∅ : sample_store) = (Ok l', fsc')
      /\ fsc_get "run_progress" fsc'
         = PyFloat (clamp (progress_formula 0 100 (res_end_timestamp (res_at 50))))
      /\ (update_run_progress bar fsc').1
         = Ok (bar (clamp (progress_formula 0 100 (res_end_timestamp (res_at 50)))))
      /\ (0 ≤ clamp (progress_formula 0 100 (res_end_timestamp (res_at 50))))%Qc
      /\ (clamp (progress_formula 0 100 (res_end_timestamp (res_at 50)))
          ≤ hundred)%Qc.
Proof.
  assert (H : 0 <= res_end_timestamp (res_at 50) <= 100) by (simpl; lia).
  split; [lia|]. split; [exact H|].
  apply (progress_is_the_clamped_ratio bar 0 100 (res_at 50) no_locals ∅); [lia|exact H].
Defined.


Lemma bad_request_fails_before_any_step_witness :
  (0 <= 100
   \/ (exists e, Strategy.decode Strategy.holdings "{}" = Err e)
   \/ (exists portfolio, Strategy.decode Strategy.holdings "{}" = Ok portfolio
                          /\ Strategy.valid_portfolio portfolio = false))
  /\ (fails_fast (update_report_state (Strategy.decode Strategy.holdings)
                    (Strategy.strategy Strategy.texts) (Some 1) "{}" 100 0 60
                    (∅ : sample_store)) ∅
      /\ (exists e,
            update_report_state (Strategy.decode Strategy.holdings)
              (Strategy.strategy Strategy.texts) (Some 1) "{}" 100 0 60
              (∅ : sample_store)
            = (Err e, (reset_cache ∅).2)
            /\ (Strategy.decode Strategy.holdings "{}" = Err e
                \/ e = Strategy.ValidationError))
      /\ (forall portfolio, Strategy.decode Strategy.holdings "{}" = Ok portfolio ->
            yielded (Strategy.strategy Strategy.texts 100 0 60 portfolio) = [])).
Proof.
  assert (H : 0 <= 100
   \/ (exists e, Strategy.decode Strategy.holdings "{}" = Err e)
   \/ (exists portfolio, Strategy.decode Strategy.holdings "{}" = Ok portfolio
                          /\ Strategy.valid_portfolio portfolio = false)) by (left; lia).
  split; [exact H|].
  exact (bad_request_fails_before_any_step Strategy.texts
           (Strategy.decode Strategy.holdings) 1 "{}" 100 0 60 ∅ H).
Defined.

Example overdrawn_portfolio_is_refused :
  Strategy.valid_portfolio Strategy.overdrawn = false
  /\ update_report_state (Strategy.decode Strategy.overdrawn)
       (Strategy.strategy Strategy.texts) (Some 1) "{}" 0 100 25 (∅ : sample_store)
     = (Err Strategy.ValidationError, (reset_cache ∅).2).
Proof.
  split; [vm_compute; reflexivity|].
  apply (update_report_state_refused _ _ _ _ _ _ _ _ Strategy.overdrawn); [reflexivity|].
  apply strategy_refuses. right. vm_compute. reflexivity.
Qed.

(** C7 fails as stated: the graphs history of the previous run is still in
    the store when the new run starts. *)
Lemma graphs_history_survives_reset :
  fsc_get "graphs_history" (reset_cache stale).2 = PyGraphs [0; 60]
  /\ ¬ run_state_cleared (reset_cache stale).2
  /\ update_report_state accept (yielding [120]) (Some 1) "{}" 0 120 60 stale
     = run_strategy accept (yielding [120]) "{}" 0 120 60 (reset_cache stale).2.
Proof.
  split; [reflexivity|]. split; [|reflexivity].
  intros (_ & _ & H & _). discriminate.
Qed.

Lemma empty_reads_as_zero_witness :
  fsc_get "run_progress" (∅ : sample_store) = PyNone
  /\ fsc_get "run_progress" (loop_body 0 100 no_locals (res_at 0) (∅ : sample_store)).2
     = PyFloat 0%Qc
  /\ ((update_run_progress bar (∅ : sample_store)).1
      = (update_run_progress bar
           (loop_body 0 100 no_locals (res_at 0) (∅ : sample_store)).2).1
      /\ (update_run_progress bar (∅ : sample_store)).1 = Ok (bar 0%Qc)
      /\ (update_run_progress bar (∅ : sample_store)).2
         = (reset_cache (∅ : sample_store)).2
      /\ (update_run_progress bar
            (loop_body 0 100 no_locals (res_at 0) (∅ : sample_store)).2).2
         = (loop_body 0 100 no_locals (res_at 0) (∅ : sample_store)).2).
Proof.
  assert (Z0 : fsc_get "run_progress"
                 (loop_body 0 100 no_locals (res_at 0) (∅ : sample_store)).2
               = PyFloat 0%Qc).
  { rewrite loop_body_eq, run_progress_Ok by lia. unfold fsc_get.
    cbn [snd]. rewrite lookup_insert_eq. cbn [default from_option].
    change (res_end_timestamp (res_at 0)) with 0.
    rewrite formula_at_start by lia. reflexivity. }
  split; [reflexivity|]. split; [exact Z0|].
  exact (empty_reads_as_zero bar ∅ _ eq_refl Z0).
Defined.

(** C9 fails as stated: the poller's answer on a store nothing was ever
    published to is the answer it gives during a run whose first step, at the
    start timestamp, has just published a progress of 0. *)
Lemma empty_and_zero_are_not_told_apart :
  fsc_get "run_progress" (loop_body 0 100 no_locals (res_at 0) (∅ : sample_store)).2
    = PyFloat 0%Qc
  /\ (update_run_progress bar (∅ : sample_store)).1 = Ok 0%Qc
  /\ (update_run_progress bar
        (loop_body 0 100 no_locals (res_at 0) (∅ : sample_store)).2).1 = Ok 0%Qc
  /\ ¬ told_apart bar (∅ : sample_store)
        (loop_body 0 100 no_locals (res_at 0) (∅ : sample_store)).2.
Proof.
  assert (Z0 : fsc_get "run_progress"
                 (loop_body 0 100 no_locals (res_at 0) (∅ : sample_store)).2
               = PyFloat 0%Qc).
  { rewrite loop_body_eq, run_progress_Ok by lia. unfold fsc_get.
    cbn [snd]. rewrite lookup_insert_eq. cbn [default from_option].
    change (res_end_timestamp (res_at 0)) with 0.
    rewrite formula_at_start by lia. reflexivity. }
  assert (N : fsc_get "run_progress" (∅ : sample_store) = PyNone) by reflexivity.
  split; [exact Z0|].
  rewrite (update_run_progress_None bar _ N), (update_run_progress_Float bar _ _ Z0).
  split; [reflexivity|]. split; [reflexivity|].
  unfold told_apart.
  rewrite (update_run_progress_None bar _ N), (update_run_progress_Float bar _ _ Z0).
  intros H. apply H. reflexivity.
Qed.

End DashboardClaims.

(** ** More on the graph builder *)

Module UtilsMore.
Import Utils Spec Sample MoreSpec MoreSample UtilsTheory.

Section Lists.
Context {A B : Type}.

Lemma mapM_ext_in (f g : A -> result B) (l : list A) :
  (forall x, x ∈ l -> f x = g x) -> mapM f l = mapM g l.
Proof.
  induction l as [|x l IH]; intros H; [reflexivity|]. cbn [mapM].
  rewrite (H x) by left. rewrite IH; [reflexivity|].
  intros y Hy. apply H. right. exact Hy.
Qed.

Lemma mapM_Err_iff (f : A -> result B) (l : list A) (e : exn) :
  mapM f l = Err e <->
  exists l1 x l2, l = l1 ++ x :: l2
    /\ Forall (fun y => is_Ok (f y)) l1 /\ f x = Err e.
Proof.
  split.
  - induction l as [|x l IH]; cbn [mapM]; [discriminate|].
    destruct (f x) as [y|e'] eqn:Hx; simpl.
    + destruct (mapM f l) as [ys|e'] eqn:Hl; simpl; [discriminate|].
      intros [= ->]. destruct (IH eq_refl) as (l1 & z & l2 & -> & HF & Hz).
      exists (x :: l1), z, l2. split; [reflexivity|]. split; [|exact Hz].
      constructor; [eexists; exact Hx|exact HF].
    + intros [= ->]. exists [], x, l.
      split; [reflexivity|]. split; [constructor|exact Hx].
  - intros (l1 & x & l2 & -> & HF & Hx).
    induction HF as [|y l1 [b Hy] _ IH]; cbn [mapM app].
    + rewrite Hx. reflexivity.
    + rewrite Hy. simpl. rewrite IH. reflexivity.
Qed.

Lemma StronglySorted_filter_keep (R : relation A) (P : A -> Prop)
    `{forall x, Decision (P x)} (l : list A) :
  StronglySorted R l -> StronglySorted R (filter P l).
Proof.
  induction 1 as [|x l Hl IH Hx]; [constructor|].
  rewrite filter_cons. destruct (decide (P x)); [|exact IH].
  constructor; [exact IH|].
  apply Forall_forall. intros y Hy. apply list_elem_of_filter in Hy as [_ Hy].
  rewrite Forall_forall in Hx. apply Hx, Hy.
Qed.

Lemma enumerate_from_sorted (k : Z) (l : list A) :
  StronglySorted (fun p q : Z * A => p.1 < q.1) (enumerate_from k l).
Proof.
  revert k. induction l as [|x l IH]; intros k; simpl; constructor; [apply IH|].
  apply Forall_forall. intros [i y] Hy.
  apply elem_of_enumerate_from in Hy as (n & -> & _). simpl. lia.
Qed.

End Lists.

Lemma pairs_sorted (ps qs : list (Z * Asset)) :
  StronglySorted (fun p q : Z * Asset => p.1 < q.1) ps ->
  StronglySorted (fun p q : Z * Asset => p.1 < q.1) qs ->
  StronglySorted ends_lt
    ((fun pq : (Z * Asset) * (Z * Asset) => (pq.1.1, pq.2.1))
       <$> (p ← ps; (fun q => (p, q)) <$> filter (fun q => wanted p q) qs)).
Proof.
  intros Hs Hq. induction Hs as [|p ps Hps IH Hp]; [constructor|].
  rewrite bind_cons, fmap_app. apply StronglySorted_app. split; [|split].
  - intros x y Hx Hy.
    apply list_elem_of_fmap in Hx as (pq & -> & Hx).
    apply list_elem_of_fmap in Hx as (q & -> & _).
    apply list_elem_of_fmap in Hy as (pq' & -> & Hy).
    apply list_elem_of_bind in Hy as (p' & Hy & Hp').
    apply list_elem_of_fmap in Hy as (q' & -> & _).
    left. simpl. rewrite Forall_forall in Hp. apply Hp, Hp'.
  - rewrite <- list_fmap_compose.
    apply (StronglySorted_fmap _ (fun q q' : Z * Asset => q.1 < q'.1)).
    + intros q q' Hqq. right. simpl. auto.
    + apply StronglySorted_filter_keep. exact Hq.
  - exact IH.
Qed.

Lemma kept_pairs_sorted (assets : list Asset) :
  StronglySorted ends_lt
    ((fun pq : (Z * Asset) * (Z * Asset) => (pq.1.1, pq.2.1)) <$> kept_pairs assets).
Proof. apply pairs_sorted; apply enumerate_from_sorted. Qed.

Lemma flat_snapshot (assets : list Asset) (timestamp timespan : Z) (r : Qc) :
  assets_to_edges_list assets timestamp (flat r) timespan
  = Ok (flat_edges assets r, mapping_of (enumerate assets) ∅).
Proof.
  rewrite assets_to_edges_list_eq.
  erewrite mapM_total; [reflexivity|]. intros pq. reflexivity.
Qed.

Lemma linked_sym (a b : Asset) : linked a b -> linked b a.
Proof. unfold linked. intros [H|H]; [left|right]; congruence. Qed.

(** X1. The edges of a snapshot come in the order of the two loops: by
    [from_node], and among the edges of one [from_node] by [to_node], each
    strictly after the one before. *)
Theorem edges_follow_loop_order (assets : list Asset) (timestamp : Z)
    (exchanger : Exchanger) (timespan : Z) (edges : list Edge)
    (nodes_mapping : gmap string Z) :
  assets_to_edges_list assets timestamp exchanger timespan
    = Ok (edges, nodes_mapping) ->
  StronglySorted ends_lt (ends <$> edges).
Proof.
  intros H. destruct (snapshot_edges _ _ _ _ _ _ H) as (_ & _ & ->).
  apply kept_pairs_sorted.
Qed.

Lemma edges_follow_loop_order_witness :
  assets_to_edges_list [X_BTC; X_ETH; Y_ETH] 0 (flat (Qc_of_Z 2)) 60
    = Ok (flat_edges [X_BTC; X_ETH; Y_ETH] (Qc_of_Z 2),
          mapping_of (enumerate [X_BTC; X_ETH; Y_ETH]) ∅)
  /\ StronglySorted ends_lt (ends <$> flat_edges [X_BTC; X_ETH; Y_ETH] (Qc_of_Z 2)).
Proof.
  split; [apply flat_snapshot|].
  apply (edges_follow_loop_order [X_BTC; X_ETH; Y_ETH] 0 (flat (Qc_of_Z 2)) 60
           _ _ (flat_snapshot _ _ _ _)).
Defined.

(** X2. A snapshot holds the edge from one asset to another exactly when it
    holds the edge back: every edge has its reverse, with the two assets and
    the two node indices swapped. *)
Theorem edges_come_in_both_directions (assets : list Asset) (timestamp : Z)
    (exchanger : Exchanger) (timespan : Z) (edges : list Edge)
    (nodes_mapping : gmap string Z) :
  assets_to_edges_list assets timestamp exchanger timespan
    = Ok (edges, nodes_mapping) ->
  forall e, e ∈ edges ->
    exists e', e' ∈ edges
      /\ from_node e' = to_node e /\ to_node e' = from_node e
      /\ from_asset e' = to_asset e /\ to_asset e' = from_asset e.
Proof.
  intros H e He. destruct (snapshot_edges _ _ _ _ _ _ H) as (Hall & Hback & _).
  destruct (Hback e He) as ([p q] & Hpq & Hq).
  apply quote_edge_Ok in Hq as (x & _ & ->).
  assert (Hqp : (q, p) ∈ kept_pairs assets).
  { apply elem_of_kept_pairs in Hpq as (n & k & Hn & Hk & Ha & Hb & Hne & Hl).
    apply elem_of_kept_pairs. exists k, n. simpl in *.
    repeat split; try assumption; [congruence|apply linked_sym, Hl]. }
  destruct (Hall _ Hqp) as (e' & He' & Hq').
  apply quote_edge_Ok in Hq' as (y & _ & ->).
  eexists. split; [exact He'|]. repeat split.
Qed.

Lemma edges_come_in_both_directions_witness :
  assets_to_edges_list [X_BTC; X_ETH; Y_ETH] 0 (flat (Qc_of_Z 2)) 60
    = Ok (flat_edges [X_BTC; X_ETH; Y_ETH] (Qc_of_Z 2),
          mapping_of (enumerate [X_BTC; X_ETH; Y_ETH]) ∅)
  /\ forall e, e ∈ flat_edges [X_BTC; X_ETH; Y_ETH] (Qc_of_Z 2) ->
       exists e', e' ∈ flat_edges [X_BTC; X_ETH; Y_ETH] (Qc_of_Z 2)
         /\ from_node e' = to_node e /\ to_node e' = from_node e
         /\ from_asset e' = to_asset e /\ to_asset e' = from_asset e.
Proof.
  split; [apply flat_snapshot|].
  apply (edges_come_in_both_directions [X_BTC; X_ETH; Y_ETH] 0 (flat (Qc_of_Z 2)) 60
           _ _ (flat_snapshot _ _ _ _)).
Defined.

Lemma quote_edge_Err (timestamp : Z) (exchanger : Exchanger) (timespan : Z)
    (pq : (Z * Asset) * (Z * Asset)) (e : exn) :
  quote_edge timestamp exchanger timespan pq = Err e <->
  exchange exchanger timestamp pq.1.2 pq.2.2 timespan = Err e
  \/ (exchange exchanger timestamp pq.1.2 pq.2.2 timespan = Ok RNone /\ e = TypeError).
Proof.
  unfold quote_edge.
  destruct (exchange exchanger timestamp pq.1.2 pq.2.2 timespan) as [[|x]|e'];
    simpl; split.
  - intros [= <-]. right. auto.
  - intros [[=]|[_ ->]]. reflexivity.
  - discriminate.
  - intros [[=]|[[=] _]].
  - intros [= ->]. left. reflexivity.
  - intros [[= ->]|[[=] _]]. reflexivity.
Qed.

Lemma quote_edge_is_Ok (timestamp : Z) (exchanger : Exchanger) (timespan : Z)
    (pq : (Z * Asset) * (Z * Asset)) :
  is_Ok (quote_edge timestamp exchanger timespan pq) <->
  exists x, exchange exchanger timestamp pq.1.2 pq.2.2 timespan = Ok (RFloat x).
Proof.
  split.
  - intros [e He]. apply quote_edge_Ok in He as (x & Hx & _). eauto.
  - intros [x Hx]. eexists. apply quote_edge_Ok. eauto.
Qed.

(** X3. The builder raises [e] exactly when, going through the linked pairs
    of distinct positions in loop order, the first pair whose quote is no
    float either has its lookup raise [e], or has the rate [None] and [e] is
    the [TypeError] of [np.log]: the pairs before it were all answered, and
    the pairs after it are not looked at. *)
Theorem first_failing_quote_is_raised (assets : list Asset) (timestamp : Z)
    (exchanger : Exchanger) (timespan : Z) (e : exn) :
  assets_to_edges_list assets timestamp exchanger timespan = Err e <->
  exists before pq after,
    kept_pairs assets = before ++ pq :: after
    /\ Forall (fun p : (Z * Asset) * (Z * Asset) =>
                exists x, exchange exchanger timestamp p.1.2 p.2.2 timespan
                          = Ok (RFloat x)) before
    /\ (exchange exchanger timestamp pq.1.2 pq.2.2 timespan = Err e
        \/ (exchange exchanger timestamp pq.1.2 pq.2.2 timespan = Ok RNone
            /\ e = TypeError)).
Proof.
  rewrite assets_to_edges_list_eq.
  transitivity (mapM (quote_edge timestamp exchanger timespan) (kept_pairs assets)
                = Err e).
  { destruct (mapM _ _); simpl; split; congruence. }
  rewrite mapM_Err_iff. split.
  - intros (l1 & pq & l2 & Hl & HF & Hpq). exists l1, pq, l2.
    split; [exact Hl|]. split; [|apply quote_edge_Err, Hpq].
    eapply Forall_impl; [exact HF|]. intros p Hp. apply quote_edge_is_Ok, Hp.
  - intros (l1 & pq & l2 & Hl & HF & Hpq). exists l1, pq, l2.
    split; [exact Hl|]. split; [|apply quote_edge_Err, Hpq].
    eapply Forall_impl; [exact HF|]. intros p Hp. apply quote_edge_is_Ok, Hp.
Qed.

(** X4. The quote source is only asked about linked assets at distinct
    positions: two sources that agree on those pairs, at the timestamp and
    timespan of the call, give the same result, whatever they do elsewhere. *)
Theorem only_linked_pairs_are_quoted (assets : list Asset) (timestamp : Z)
    (exchanger1 exchanger2 : Exchanger) (timespan : Z) :
  (forall (n k : nat) a b,
     assets !! n = Some a -> assets !! k = Some b -> n ≠ k -> linked a b ->
     exchange exchanger1 timestamp a b timespan
     = exchange exchanger2 timestamp a b timespan) ->
  assets_to_edges_list assets timestamp exchanger1 timespan
  = assets_to_edges_list assets timestamp exchanger2 timespan.
Proof.
  intros H. rewrite !assets_to_edges_list_eq.
  rewrite (mapM_ext_in (quote_edge timestamp exchanger1 timespan)
                       (quote_edge timestamp exchanger2 timespan)); [reflexivity|].
  intros [[i a] [j b]] Hpq.
  apply elem_of_kept_pairs in Hpq as (n & k & _ & _ & Hn & Hk & Hne & Hl).
  unfold quote_edge. simpl in *. rewrite (H n k a b) by assumption. reflexivity.
Qed.

Lemma only_linked_pairs_are_quoted_witness :
  (forall (n k : nat) a b,
     [X_BTC; X_ETH; Y_ETH] !! n = Some a -> [X_BTC; X_ETH; Y_ETH] !! k = Some b ->
     n ≠ k -> linked a b ->
     exchange (flat (Qc_of_Z 2)) 0 a b 60 = exchange picky 0 a b 60)
  /\ exchange (flat (Qc_of_Z 2)) 0 X_BTC Y_ETH 60 ≠ exchange picky 0 X_BTC Y_ETH 60
  /\ assets_to_edges_list [X_BTC; X_ETH; Y_ETH] 0 (flat (Qc_of_Z 2)) 60
     = assets_to_edges_list [X_BTC; X_ETH; Y_ETH] 0 picky 60.
Proof.
  assert (H : forall (n k : nat) a b,
     [X_BTC; X_ETH; Y_ETH] !! n = Some a -> [X_BTC; X_ETH; Y_ETH] !! k = Some b ->
     n ≠ k -> linked a b ->
     exchange (flat (Qc_of_Z 2)) 0 a b 60 = exchange picky 0 a b 60).
  { intros n k a b _ _ _ Hl. simpl. rewrite bool_decide_eq_true_2 by exact Hl.
    reflexivity. }
  split; [exact H|]. split; [discriminate|].
  exact (only_linked_pairs_are_quoted [X_BTC; X_ETH; Y_ETH] 0
           (flat (Qc_of_Z 2)) picky 60 H).
Defined.

Lemma first_failing_quote_is_raised_witness :
  assets_to_edges_list [X_BTC; X_ETH; Y_ETH] 0 no_quote_from_Y 60
    = Err (Raised "no quote")
  /\ exists before pq after,
      kept_pairs [X_BTC; X_ETH; Y_ETH] = before ++ pq :: after
      /\ Forall (fun p : (Z * Asset) * (Z * Asset) =>
                  exists x, exchange no_quote_from_Y 0 p.1.2 p.2.2 60 = Ok (RFloat x))
                before
      /\ (exchange no_quote_from_Y 0 pq.1.2 pq.2.2 60 = Err (Raised "no quote")
          \/ (exchange no_quote_from_Y 0 pq.1.2 pq.2.2 60 = Ok RNone
              /\ Raised "no quote" = TypeError)).
Proof.
  assert (H : assets_to_edges_list [X_BTC; X_ETH; Y_ETH] 0 no_quote_from_Y 60
              = Err (Raised "no quote")) by (vm_compute; reflexivity).
  split; [exact H|].
  exact (proj1 (first_failing_quote_is_raised [X_BTC; X_ETH; Y_ETH] 0
                  no_quote_from_Y 60 (Raised "no quote")) H).
Defined.

(** *** The dictionary, keys repeated or not *)

Lemma enumerate_from_app {A : Type} (k : Z) (l1 l2 : list A) :
  enumerate_from k (l1 ++ l2)
  = enumerate_from k l1 ++ enumerate_from (k + Z.of_nat (length l1)) l2.
Proof.
  revert k. induction l1 as [|x l1 IH]; intros k; cbn [app enumerate_from length].
  - f_equal. lia.
  - rewrite IH. do 3 f_equal. lia.
Qed.

Lemma mapping_of_app (l1 l2 : list (Z * Asset)) (m : gmap string Z) :
  mapping_of (l1 ++ l2) m = mapping_of l2 (mapping_of l1 m).
Proof. unfold mapping_of. apply foldl_app. Qed.

Lemma mapping_of_middle (l1 : list (Z * Asset)) (p : Z * Asset)
    (l2 : list (Z * Asset)) (m : gmap string Z) :
  platform_symbol p.2 ∉ (fun q : Z * Asset => platform_symbol q.2) <$> l2 ->
  mapping_of (l1 ++ p :: l2) m !! platform_symbol p.2 = Some p.1.
Proof.
  intros Hfresh. rewrite mapping_of_app.
  change (mapping_of (p :: l2) (mapping_of l1 m))
    with (mapping_of l2 (<[platform_symbol p.2 := p.1]> (mapping_of l1 m))).
  rewrite mapping_of_other by exact Hfresh. apply lookup_insert_eq.
Qed.

(** X5. Whatever the keys, the node mapping sends a key to the position of
    the last asset of the list that has it: an asset no later asset shares
    the key with is found at its own position. *)
Theorem last_asset_with_a_key_wins (assets : list Asset) (timestamp : Z)
    (exchanger : Exchanger) (timespan : Z) (edges : list Edge)
    (nodes_mapping : gmap string Z) (n : nat) (a : Asset) :
  assets_to_edges_list assets timestamp exchanger timespan
    = Ok (edges, nodes_mapping) ->
  assets !! n = Some a ->
  (forall (j : nat) b, (n < j)%nat -> assets !! j = Some b ->
     platform_symbol b ≠ platform_symbol a) ->
  nodes_mapping !! platform_symbol a = Some (Z.of_nat n).
Proof.
  intros H Hn Hlast. apply snapshot_Ok in H as [_ ->].
  assert (E : enumerate assets
              = enumerate_from 0 (take n assets)
                ++ (Z.of_nat n, a) :: enumerate_from (Z.of_nat n + 1) (drop (S n) assets)).
  { unfold enumerate. rewrite <- (take_drop_middle assets n a Hn) at 1.
    rewrite enumerate_from_app. cbn [enumerate_from].
    apply lookup_lt_Some in Hn. rewrite length_take.
    replace (0 + Z.of_nat (n `min` length assets)) with (Z.of_nat n) by lia.
    reflexivity. }
  rewrite E. apply (mapping_of_middle _ (Z.of_nat n, a)).
  intros Hin. apply list_elem_of_fmap in Hin as ([i b] & Hkey & Hb).
  apply elem_of_enumerate_from in Hb as (j & _ & Hj).
  rewrite lookup_drop in Hj. simpl in Hkey.
  apply (Hlast (S n + j)%nat b); [lia|exact Hj|congruence].
Qed.

Lemma last_asset_with_a_key_wins_witness :
  assets_to_edges_list [X_BTC; X_ETH; X_BTC] 0 (flat (Qc_of_Z 2)) 60
    = Ok (flat_edges [X_BTC; X_ETH; X_BTC] (Qc_of_Z 2),
          mapping_of (enumerate [X_BTC; X_ETH; X_BTC]) ∅)
  /\ [X_BTC; X_ETH; X_BTC] !! 2%nat = Some X_BTC
  /\ (forall (j : nat) b, (2 < j)%nat -> [X_BTC; X_ETH; X_BTC] !! j = Some b ->
        platform_symbol b ≠ platform_symbol X_BTC)
  /\ mapping_of (enumerate [X_BTC; X_ETH; X_BTC]) ∅ !! platform_symbol X_BTC
     = Some (Z.of_nat 2).
Proof.
  assert (H : forall (j : nat) b, (2 < j)%nat ->
            [X_BTC; X_ETH; X_BTC] !! j = Some b ->
            platform_symbol b ≠ platform_symbol X_BTC).
  { intros j b Hj Hb. apply lookup_lt_Some in Hb. simpl in Hb. lia. }
  split; [apply flat_snapshot|]. split; [reflexivity|]. split; [exact H|].
  exact (last_asset_with_a_key_wins [X_BTC; X_ETH; X_BTC] 0 (flat (Qc_of_Z 2)) 60
           _ _ 2%nat X_BTC (flat_snapshot _ _ _ _) eq_refl H).
Defined.

(** *** How many edges *)

Lemma length_enumerate_from {A : Type} (k : Z) (l : list A) :
  length (enumerate_from k l) = length l.
Proof. revert k. induction l as [|x l IH]; intros k; simpl; [|rewrite IH]; reflexivity. Qed.

Lemma wanted_irrefl (p : Z * Asset) : ¬ wanted p p.
Proof.
  intros H. apply Is_true_true, wanted_spec in H as [H _]. apply H. reflexivity.
Qed.

Lemma length_pairs_le (ps qs : list (Z * Asset)) :
  (forall p, p ∈ ps -> p ∈ qs) ->
  (length (p ← ps; (fun q => (p, q)) <$> filter (fun q => wanted p q) qs)
   <= length ps * (length qs - 1))%nat.
Proof.
  induction ps as [|p ps IH]; intros Hsub; [simpl; lia|].
  rewrite bind_cons, length_app, length_fmap.
  assert (Hp : (length (filter (fun q => wanted p q) qs) < length qs)%nat).
  { apply (length_filter_lt _ _ p); [apply Hsub; left|apply wanted_irrefl]. }
  assert (IH' := IH (fun q Hq => Hsub q (list_elem_of_further _ _ _ Hq))).
  simpl. lia.
Qed.

(** X6. A snapshot of [n] assets has at most [n × (n − 1)] edges. *)
Theorem at_most_one_edge_per_ordered_pair (assets : list Asset) (timestamp : Z)
    (exchanger : Exchanger) (timespan : Z) (edges : list Edge)
    (nodes_mapping : gmap string Z) :
  assets_to_edges_list assets timestamp exchanger timespan
    = Ok (edges, nodes_mapping) ->
  (length edges <= length assets * (length assets - 1))%nat.
Proof.
  intros [HF _]%snapshot_Ok. rewrite <- (Forall2_length _ _ _ HF).
  unfold kept_pairs. etransitivity; [apply length_pairs_le; auto|].
  unfold enumerate. rewrite length_enumerate_from. reflexivity.
Qed.

Lemma at_most_one_edge_per_ordered_pair_witness :
  assets_to_edges_list [X_BTC; X_ETH; Y_ETH] 0 (flat (Qc_of_Z 2)) 60
    = Ok (flat_edges [X_BTC; X_ETH; Y_ETH] (Qc_of_Z 2),
          mapping_of (enumerate [X_BTC; X_ETH; Y_ETH]) ∅)
  /\ (length (flat_edges [X_BTC; X_ETH; Y_ETH] (Qc_of_Z 2))
      <= length [X_BTC; X_ETH; Y_ETH] * (length [X_BTC; X_ETH; Y_ETH] - 1))%nat.
Proof.
  split; [apply flat_snapshot|].
  apply (at_most_one_edge_per_ordered_pair [X_BTC; X_ETH; Y_ETH] 0
           (flat (Qc_of_Z 2)) 60 _ _ (flat_snapshot _ _ _ _)).
Defined.

Lemma filter_ext_in {A : Type} (P Q : A -> Prop) `{forall x, Decision (P x)}
    `{forall x, Decision (Q x)} (l : list A) :
  (forall x, x ∈ l -> P x <-> Q x) -> filter P l = filter Q l.
Proof.
  induction l as [|x l IH]; intros HPQ; [reflexivity|].
  rewrite !filter_cons.
  rewrite IH by (intros y Hy; apply HPQ; right; exact Hy).
  pose proof (HPQ x (list_elem_of_here _ _)) as Hx.
  destruct (decide (P x)) as [HP|HP], (decide (Q x)) as [HQ|HQ];
    try reflexivity; exfalso; tauto.
Qed.

Lemma filter_all {A : Type} (P : A -> Prop) `{forall x, Decision (P x)} (l : list A) :
  (forall x, x ∈ l -> P x) -> filter P l = l.
Proof.
  induction l as [|x l IH]; intros HP; [reflexivity|].
  rewrite filter_cons, decide_True by (apply HP; left).
  rewrite IH by (intros y Hy; apply HP; right; exact Hy). reflexivity.
Qed.

Lemma length_filter_other_index {A : Type} (k i : Z) (l : list A) :
  k <= i < k + Z.of_nat (length l) ->
  length (filter (fun q : Z * A => q.1 ≠ i) (enumerate_from k l)) = (length l - 1)%nat.
Proof.
  revert k. induction l as [|x l IH]; intros k Hi; [simpl in Hi; lia|].
  cbn [enumerate_from length] in *. rewrite filter_cons. cbn [fst].
  destruct (decide (k ≠ i)) as [Hne|Heq].
  - cbn [length]. rewrite IH by lia. lia.
  - rewrite filter_all, length_enumerate_from; [lia|].
    intros [j y] (n & -> & _)%elem_of_enumerate_from. simpl. lia.
Qed.

Lemma length_pairs_complete (ps qs : list (Z * Asset)) (c : nat) :
  (forall p, p ∈ ps -> length (filter (fun q => wanted p q) qs) = c) ->
  length (p ← ps; (fun q => (p, q)) <$> filter (fun q => wanted p q) qs)
  = (length ps * c)%nat.
Proof.
  induction ps as [|p ps IH]; intros Hc; [reflexivity|].
  rewrite bind_cons, length_app, length_fmap, (Hc p) by left.
  rewrite IH by (intros q Hq; apply Hc; right; exact Hq). reflexivity.
Qed.

(** X7. When all the assets are on one platform, every ordered pair of
    distinct positions has its edge: a snapshot of [n] assets holds exactly
    [n × (n − 1)] edges. *)
Theorem one_platform_gives_all_pairs (assets : list Asset) (timestamp : Z)
    (exchanger : Exchanger) (timespan : Z) (edges : list Edge)
    (nodes_mapping : gmap string Z) :
  (forall a b, a ∈ assets -> b ∈ assets -> platform a = platform b) ->
  assets_to_edges_list assets timestamp exchanger timespan
    = Ok (edges, nodes_mapping) ->
  length edges = (length assets * (length assets - 1))%nat.
Proof.
  intros Hone [HF _]%snapshot_Ok. rewrite <- (Forall2_length _ _ _ HF).
  unfold kept_pairs.
  rewrite (length_pairs_complete _ _ (length assets - 1)).
  { unfold enumerate. rewrite length_enumerate_from. reflexivity. }
  intros [i a] Hp.
  apply elem_of_enumerate_from in Hp as Hp'. destruct Hp' as (n & -> & Hn).
  rewrite (filter_ext_in _ (fun q : Z * Asset => q.1 ≠ 0 + Z.of_nat n)).
  - apply length_filter_other_index. apply lookup_lt_Some in Hn. lia.
  - intros [j b] Hq. apply elem_of_enumerate_from in Hq as (k & -> & Hk).
    rewrite Is_true_true, wanted_spec. simpl. split.
    + intros [Hne _]. congruence.
    + intros Hne. split; [congruence|]. left.
      apply Hone; eapply list_elem_of_lookup_2; eassumption.
Qed.

Lemma one_platform_gives_all_pairs_witness :
  (forall a b, a ∈ [X_BTC; X_ETH] -> b ∈ [X_BTC; X_ETH] -> platform a = platform b)
  /\ assets_to_edges_list [X_BTC; X_ETH] 0 (flat (Qc_of_Z 2)) 60
     = Ok (flat_edges [X_BTC; X_ETH] (Qc_of_Z 2),
           mapping_of (enumerate [X_BTC; X_ETH]) ∅)
  /\ length (flat_edges [X_BTC; X_ETH] (Qc_of_Z 2))
     = (length [X_BTC; X_ETH] * (length [X_BTC; X_ETH] - 1))%nat.
Proof.
  assert (H : forall a b, a ∈ [X_BTC; X_ETH] -> b ∈ [X_BTC; X_ETH] ->
                platform a = platform b).
  { intros a b Ha Hb.
    assert (Hx : forall c, c ∈ [X_BTC; X_ETH] -> platform c = "X"%string).
    { intros c Hc. repeat (apply elem_of_cons in Hc as [->|Hc]; [reflexivity|]).
      inversion Hc. }
    rewrite (Hx a Ha), (Hx b Hb). reflexivity. }
  split; [exact H|]. split; [apply flat_snapshot|].
  exact (one_platform_gives_all_pairs [X_BTC; X_ETH] 0 (flat (Qc_of_Z 2)) 60
           _ _ H (flat_snapshot _ _ _ _)).
Defined.

(** X8. With fewer than two assets the quote source is never asked: whatever
    the source does, the builder returns no edge, and the mapping holds the
    key of the one asset, if there is one, at node 0. *)
Theorem fewer_than_two_assets_need_no_quote (assets : list Asset) (timestamp : Z)
    (exchanger : Exchanger) (timespan : Z) :
  (length assets <= 1)%nat ->
  assets_to_edges_list assets timestamp exchanger timespan
  = Ok ([], list_to_map ((fun a => (platform_symbol a, 0)) <$> assets)).
Proof.
  intros H. destruct assets as [|a [|b l]]; [reflexivity|reflexivity|].
  simpl in H. lia.
Qed.

Lemma fewer_than_two_assets_need_no_quote_witness :
  (length [Y_BTC] <= 1)%nat
  /\ assets_to_edges_list [Y_BTC] 0 silent 60
     = Ok ([], list_to_map ((fun a => (platform_symbol a, 0)) <$> [Y_BTC])).
Proof.
  split; [simpl; lia|].
  apply (fewer_than_two_assets_need_no_quote [Y_BTC] 0 silent 60). simpl. lia.
Defined.

(** *** More on [nodes_to_assets] *)

Lemma nodes_to_assets_loop_mapM (assets : list Asset) (nodes : list Z)
    (acc : list Asset) :
  for_each (fun result node => a ← py_index assets node; Ok (result ++ [a]))
           nodes acc
  = res ← mapM (py_index assets) nodes; Ok (acc ++ res).
Proof.
  revert acc. induction nodes as [|node nodes IH]; intros acc.
  - simpl. rewrite app_nil_r. reflexivity.
  - cbn [for_each mapM]. destruct (py_index assets node) as [a|e]; simpl; [|reflexivity].
    rewrite IH. destruct (mapM _ _) as [res|e]; simpl; [|reflexivity].
    rewrite <- app_assoc. reflexivity.
Qed.

Lemma nodes_to_assets_mapM (nodes : list Z) (assets : list Asset) :
  nodes_to_assets nodes assets = mapM (py_index assets) nodes.
Proof.
  unfold nodes_to_assets. rewrite nodes_to_assets_loop_mapM.
  destruct (mapM _ _); reflexivity.
Qed.

Lemma py_index_inside {A : Type} (l : list A) (i : Z) :
  - Z.of_nat (length l) <= i < Z.of_nat (length l) ->
  exists x, l !! wrap (length l) i = Some x /\ py_index l i = Ok x.
Proof.
  intros Hi. unfold py_index, wrap.
  destruct (lookup_lt_is_Some_2 l
              (Z.to_nat (if i <? 0 then Z.of_nat (length l) + i else i)))
    as [x Hx].
  { destruct (Z.ltb_spec i 0); lia. }
  exists x. split; [exact Hx|]. rewrite Hx.
  destruct (Z.ltb_spec i 0).
  - destruct (Z.leb_spec 0 (Z.of_nat (length l) + i)); [|lia].
    destruct (Z.ltb_spec (Z.of_nat (length l) + i) (Z.of_nat (length l))); [|lia].
    reflexivity.
  - destruct (Z.leb_spec 0 i); [|lia].
    destruct (Z.ltb_spec i (Z.of_nat (length l))); [|lia]. reflexivity.
Qed.

Lemma py_index_outside {A : Type} (l : list A) (i : Z) :
  i < - Z.of_nat (length l) \/ Z.of_nat (length l) <= i ->
  py_index l i = Err IndexError.
Proof.
  intros Hi. unfold py_index.
  destruct (Z.ltb_spec i 0).
  - destruct (Z.leb_spec 0 (Z.of_nat (length l) + i)); [lia|]. reflexivity.
  - destruct (Z.leb_spec 0 i); [|lia].
    destruct (Z.ltb_spec i (Z.of_nat (length l))); [lia|]. reflexivity.
Qed.

Lemma py_index_Err {A : Type} (l : list A) (i : Z) (e : exn) :
  py_index l i = Err e -> e = IndexError.
Proof.
  unfold py_index. destruct (_ && _); [|congruence].
  destruct (l !! _); congruence.
Qed.

(** X9. [nodes_to_assets] accepts every index of [-len(assets), len(assets))]:
    it then returns a list as long as [nodes], whose [i]-th element is the
    asset at [nodes[i]], a negative index counting from the end of the list. *)
Theorem nodes_to_assets_counts_from_the_end (nodes : list Z) (assets : list Asset) :
  Forall (fun node => - Z.of_nat (length assets) <= node < Z.of_nat (length assets))
         nodes ->
  exists res,
    nodes_to_assets nodes assets = Ok res
    /\ length res = length nodes
    /\ forall (i : nat) node, nodes !! i = Some node ->
         res !! i = assets !! wrap (length assets) node.
Proof.
  intros H. rewrite nodes_to_assets_mapM.
  assert (HF : exists res,
    Forall2 (fun node a => py_index assets node = Ok a
                           /\ assets !! wrap (length assets) node = Some a) nodes res).
  { induction H as [|node nodes Hn _ (res & IH)]; [exists []; constructor|].
    destruct (py_index_inside assets node Hn) as (a & Ha & Hpy).
    exists (a :: res). constructor; auto. }
  destruct HF as (res & HF). exists res. split; [|split].
  - apply mapM_Ok. eapply Forall2_impl; [exact HF|]. intros ? ? [? _]. assumption.
  - symmetry. eapply Forall2_length, HF.
  - intros i node Hi.
    destruct (Forall2_lookup_l _ _ _ _ _ HF Hi) as (a & -> & _ & Ha).
    symmetry. exact Ha.
Qed.

Lemma nodes_to_assets_counts_from_the_end_witness :
  Forall (fun node => - Z.of_nat (length [X_BTC; X_ETH; Y_ETH]) <= node
                      < Z.of_nat (length [X_BTC; X_ETH; Y_ETH])) [-1; 0; -3]
  /\ exists res,
      nodes_to_assets [-1; 0; -3] [X_BTC; X_ETH; Y_ETH] = Ok res
      /\ length res = length [-1; 0; -3]
      /\ forall (i : nat) node, [-1; 0; -3] !! i = Some node ->
           res !! i = [X_BTC; X_ETH; Y_ETH] !! wrap (length [X_BTC; X_ETH; Y_ETH]) node.
Proof.
  assert (H : Forall (fun node => - Z.of_nat (length [X_BTC; X_ETH; Y_ETH]) <= node
                      < Z.of_nat (length [X_BTC; X_ETH; Y_ETH])) [-1; 0; -3]).
  { repeat constructor; simpl; lia. }
  split; [exact H|].
  exact (nodes_to_assets_counts_from_the_end [-1; 0; -3] [X_BTC; X_ETH; Y_ETH] H).
Defined.

(** X10. [nodes_to_assets] raises [IndexError], and nothing else, as soon as
    one index lies outside [-len(assets), len(assets))]; in particular every
    index is refused when the asset list is empty. *)
Theorem nodes_to_assets_refuses_outside_indices (nodes : list Z)
    (assets : list Asset) :
  Exists (fun node => node < - Z.of_nat (length assets)
                      \/ Z.of_nat (length assets) <= node) nodes ->
  nodes_to_assets nodes assets = Err IndexError.
Proof.
  intros H. rewrite nodes_to_assets_mapM.
  apply Exists_exists in H as (node & Hin & Hout).
  destruct (mapM_Err (py_index assets) nodes node IndexError Hin
              (py_index_outside assets node Hout)) as [e He].
  rewrite He. f_equal.
  apply mapM_Err_iff in He as (_ & x & _ & _ & _ & Hx).
  eapply py_index_Err, Hx.
Qed.

Lemma nodes_to_assets_refuses_outside_indices_witness :
  Exists (fun node => node < - Z.of_nat (length [X_BTC; X_ETH])
                      \/ Z.of_nat (length [X_BTC; X_ETH]) <= node) [0; 2; 1]
  /\ nodes_to_assets [0; 2; 1] [X_BTC; X_ETH] = Err IndexError.
Proof.
  assert (H : Exists (fun node => node < - Z.of_nat (length [X_BTC; X_ETH])
                      \/ Z.of_nat (length [X_BTC; X_ETH]) <= node) [0; 2; 1]).
  { apply Exists_cons_tl, Exists_cons_hd. right. simpl. lia. }
  split; [exact H|].
  exact (nodes_to_assets_refuses_outside_indices [0; 2; 1] [X_BTC; X_ETH] H).
Defined.

(** X11. [nodes_to_assets] works index by index: on two lists of nodes put
    end to end it gives the two results put end to end, and raises when it
    raises on the first list or, the first list being answered, on the
    second. *)
Theorem nodes_to_assets_app (nodes1 nodes2 : list Z) (assets : list Asset) :
  nodes_to_assets (nodes1 ++ nodes2) assets
  = res1 ← nodes_to_assets nodes1 assets;
    res2 ← nodes_to_assets nodes2 assets;
    Ok (res1 ++ res2).
Proof. rewrite !nodes_to_assets_mapM. apply mapM_app. Qed.

(** X12. With pairwise distinct keys, looking an asset's key up in the node
    mapping of a snapshot and giving the node to [nodes_to_assets] returns
    that asset. *)
Theorem key_to_node_to_asset (assets : list Asset) (timestamp : Z)
    (exchanger : Exchanger) (timespan : Z) (edges : list Edge)
    (nodes_mapping : gmap string Z) (a : Asset) :
  NoDup (platform_symbol <$> assets) ->
  assets_to_edges_list assets timestamp exchanger timespan
    = Ok (edges, nodes_mapping) ->
  a ∈ assets ->
  exists node,
    nodes_mapping !! platform_symbol a = Some node
    /\ nodes_to_assets [node] assets = Ok [a].
Proof.
  intros Hnd H (n & Hn)%list_elem_of_lookup.
  apply snapshot_Ok in H as [_ ->]. exists (Z.of_nat n). split.
  - apply (mapping_of_member (enumerate assets) ∅ (Z.of_nat n, a)).
    + rewrite enumerate_keys. exact Hnd.
    + apply elem_of_enumerate_from. exists n. auto.
  - rewrite nodes_to_assets_mapM. cbn [mapM].
    destruct (py_index_inside assets (Z.of_nat n)) as (x & Hx & ->).
    { apply lookup_lt_Some in Hn. lia. }
    unfold wrap in Hx. destruct (Z.ltb_spec (Z.of_nat n) 0); [lia|].
    rewrite Nat2Z.id, Hn in Hx. injection Hx as <-. reflexivity.
Qed.

Lemma key_to_node_to_asset_witness :
  NoDup (platform_symbol <$> [X_BTC; X_ETH; Y_ETH])
  /\ assets_to_edges_list [X_BTC; X_ETH; Y_ETH] 0 (flat (Qc_of_Z 2)) 60
     = Ok (flat_edges [X_BTC; X_ETH; Y_ETH] (Qc_of_Z 2),
           mapping_of (enumerate [X_BTC; X_ETH; Y_ETH]) ∅)
  /\ Y_ETH ∈ [X_BTC; X_ETH; Y_ETH]
  /\ exists node,
      mapping_of (enumerate [X_BTC; X_ETH; Y_ETH]) ∅ !! platform_symbol Y_ETH
        = Some node
      /\ nodes_to_assets [node] [X_BTC; X_ETH; Y_ETH] = Ok [Y_ETH].
Proof.
  assert (Hnd : NoDup (platform_symbol <$> [X_BTC; X_ETH; Y_ETH])) by compute_done.
  assert (Hin : Y_ETH ∈ [X_BTC; X_ETH; Y_ETH]) by (do 2 right; left).
  split; [exact Hnd|]. split; [apply flat_snapshot|]. split; [exact Hin|].
  exact (key_to_node_to_asset [X_BTC; X_ETH; Y_ETH] 0 (flat (Qc_of_Z 2)) 60 _ _
           Y_ETH Hnd (flat_snapshot _ _ _ _) Hin).
Defined.

End UtilsMore.

(** ** More on the progress cache *)

Module DashboardMore.
Import Dashboard Readers DashSpec MoreSpec Sample MoreSample DashboardTheory UtilsMore.

Lemma py_index_last {A : Type} (l : list A) (x : A) : py_index (l ++ [x]) (-1) = Ok x.
Proof.
  destruct (py_index_inside (l ++ [x]) (-1)) as (y & Hy & ->).
  { rewrite length_app. simpl. lia. }
  unfold wrap in Hy. rewrite length_app in Hy. simpl in Hy.
  replace (Z.to_nat (Z.of_nat (length l + 1) + -1)) with (length l + 0)%nat in Hy by lia.
  rewrite lookup_app_r, Nat.add_comm, Nat.add_sub in Hy by lia.
  injection Hy as <-. reflexivity.
Qed.

Section Store.
Context {Report Prices Graph : Type}.
Abbreviation store := (gmap string (pyval Report Prices Graph)).
Abbreviation RunRes := (RunRes Report Prices Graph).

Lemma get_insert (key key' : string) (v : pyval Report Prices Graph) (fsc : store) :
  fsc_get key (<[key' := v]> fsc) = if decide (key' = key) then v else fsc_get key fsc.
Proof.
  unfold fsc_get. rewrite lookup_insert. destruct (decide (key' = key)); reflexivity.
Qed.

Lemma get_step_writes (key : string) (r : RunRes) (fsc : store) :
  fsc_get key (step_writes r fsc)
  = if decide ("prices" = key) then PyPrices (prices r)
    else if decide ("report_table" = key) then PyReport (report r)
    else if decide ("graphs_history" = key) then PyGraphs (graphs_history r)
    else fsc_get key fsc.
Proof. unfold step_writes. rewrite !get_insert. reflexivity. Qed.

Lemma typed_reset (fsc : store) : store_typed fsc -> store_typed (reset_cache fsc).2.
Proof.
  intros (_ & _ & Hg & _). unfold store_typed. rewrite !get_reset.
  repeat split; try (left; reflexivity). exact Hg.
Qed.

Lemma typed_step_writes (r : RunRes) (fsc : store) :
  store_typed fsc -> store_typed (step_writes r fsc).
Proof.
  intros (_ & Hp & _ & _). unfold store_typed. rewrite !get_step_writes.
  repeat split; try (right; eexists; reflexivity). exact Hp.
Qed.

Lemma typed_progress (x : Qc) (fsc : store) :
  store_typed fsc -> store_typed (<["run_progress" := PyFloat x]> fsc).
Proof.
  intros (Hr & _ & Hg & Hp). unfold store_typed. rewrite !get_insert.
  repeat split; try assumption. right. eexists. reflexivity.
Qed.

Lemma typed_loop_body (start_timestamp end_timestamp : Z) (l : locals)
    (r : RunRes) (fsc : store) :
  store_typed fsc ->
  store_typed (loop_body start_timestamp end_timestamp l r fsc).2.
Proof.
  intros H. rewrite loop_body_eq.
  destruct (run_progress _ _ _); cbn [snd].
  - apply typed_progress, typed_step_writes, H.
  - apply typed_step_writes, H.
Qed.

Lemma typed_loop (start_timestamp end_timestamp : Z) (rs : list RunRes)
    (l : locals) (fsc : store) :
  store_typed fsc ->
  store_typed (loop start_timestamp end_timestamp rs l fsc).2.
Proof.
  revert l fsc. induction rs as [|r rs IH]; intros l fsc H; [exact H|].
  cbn [loop]. unfold bind.
  pose proof (typed_loop_body start_timestamp end_timestamp l r fsc H) as Hb.
  destruct (loop_body _ _ _ _ _) as [[l'|e] fsc']; cbn [snd] in *.
  - apply IH, Hb.
  - exact Hb.
Qed.

Lemma bind_snd_typed {A B : Type} (m : @M Report Prices Graph A)
    (k : A -> @M Report Prices Graph B) (fsc : store) :
  store_typed (m fsc).2 ->
  (forall a fsc', store_typed fsc' -> store_typed (k a fsc').2) ->
  store_typed (bind m k fsc).2.
Proof.
  intros Hm Hk. unfold bind. destruct (m fsc) as [[a|e] fsc']; cbn [snd] in *.
  - apply Hk, Hm.
  - exact Hm.
Qed.

Section Run.
Context {Portfolio : Type}.
Variables (json_loads : string -> result Portfolio)
          (strategy : Z -> Z -> Z -> Portfolio -> generator Report Prices Graph).

Lemma typed_update_report_state (run_n_clicks : option Z) (json_portfolio : string)
    (start_timestamp end_timestamp primary_granularity : Z) (fsc : store) :
  store_typed fsc ->
  store_typed (update_report_state json_loads strategy run_n_clicks json_portfolio
                 start_timestamp end_timestamp primary_granularity fsc).2.
Proof.
  intros H. unfold update_report_state. destruct run_n_clicks as [n|]; [|exact H].
  apply bind_snd_typed; [apply typed_reset, H|]. intros _ fsc1 H1.
  unfold run_strategy. apply bind_snd_typed; [exact H1|]. intros portfolio fsc2 H2.
  apply bind_snd_typed.
  - unfold iterate. apply bind_snd_typed; [apply typed_loop, H2|].
    intros l fsc3 H3. destruct (raised _); exact H3.
  - intros [[report_data prices_data] graphs] fsc3 H3.
    apply bind_snd_typed; [exact H3|]. intros g fsc4 H4. exact H4.
Qed.

End Run.

Section Poll.
Context {Html : Type} (create_progress_bar : Qc -> Html).

Lemma typed_update_run_progress (fsc : store) :
  store_typed fsc ->
  store_typed (update_run_progress create_progress_bar fsc).2
  /\ is_Ok (update_run_progress create_progress_bar fsc).1.
Proof.
  intros H. destruct H as (Hr & [Hp|[x Hp]] & Hg & Hpr).
  - rewrite (update_run_progress_None _ _ Hp). cbn [fst snd]. split.
    + apply typed_reset. unfold store_typed. rewrite Hp. auto.
    + eexists. reflexivity.
  - rewrite (update_run_progress_Float _ _ _ Hp). cbn [fst snd]. split.
    + destruct (decide _).
      * apply typed_reset. unfold store_typed. rewrite Hp. eauto 6.
      * unfold store_typed. rewrite Hp. eauto 6.
    + eexists. reflexivity.
Qed.

End Poll.

(** *** The poller at and below 100 *)

Section Polling.
Context {Html : Type} (create_progress_bar : Qc -> Html).

(** X14. Once the stored progress has reached 100 or more, a poll shows the
    bar at 100 and resets the store, so that the poll after it shows the bar
    at 0 again. *)
Theorem poll_at_100_resets (fsc : store) (x : Qc) :
  fsc_get "run_progress" fsc = PyFloat x ->
  (hundred ≤ x)%Qc ->
  update_run_progress create_progress_bar fsc
    = (Ok (create_progress_bar hundred), (reset_cache fsc).2)
  /\ update_run_progress create_progress_bar (reset_cache fsc).2
    = (Ok (create_progress_bar 0%Qc), (reset_cache fsc).2).
Proof.
  intros Hx Hle.
  assert (Hmin : py_min x hundred = hundred).
  { unfold py_min. destruct (decide (hundred < x)%Qc) as [_|Hn]; [reflexivity|].
    apply Qcle_antisym; [apply Qcnot_lt_le, Hn|exact Hle]. }
  split.
  - rewrite (update_run_progress_Float _ _ _ Hx), Hmin.
    rewrite decide_True by reflexivity. reflexivity.
  - rewrite update_run_progress_None by (rewrite get_reset; reflexivity).
    rewrite reset_reset. reflexivity.
Qed.

(** X15. While the stored progress is below 100 a poll shows the bar at the
    stored value and leaves the store exactly as it was. *)
Theorem poll_below_100_reads_only (fsc : store) (x : Qc) :
  fsc_get "run_progress" fsc = PyFloat x ->
  (x < hundred)%Qc ->
  update_run_progress create_progress_bar fsc = (Ok (create_progress_bar x), fsc).
Proof.
  intros Hx Hlt.
  assert (Hmin : py_min x hundred = x).
  { unfold py_min. destruct (decide (hundred < x)%Qc) as [Hgt|_]; [|reflexivity].
    exfalso. exact (Qclt_not_le _ _ Hgt (Qclt_le_weak _ _ Hlt)). }
  rewrite (update_run_progress_Float _ _ _ Hx), Hmin.
  rewrite decide_False; [reflexivity|]. intros ->. exact (Qclt_not_eq _ _ Hlt eq_refl).
Qed.

End Polling.

(** *** The end of a run *)

Lemma loop_app (start_timestamp end_timestamp : Z) (rs1 rs2 : list RunRes)
    (l : locals) (fsc : store) :
  loop start_timestamp end_timestamp (rs1 ++ rs2) l fsc
  = bind (loop start_timestamp end_timestamp rs1 l)
         (fun l' => loop start_timestamp end_timestamp rs2 l') fsc.
Proof.
  revert l fsc. induction rs1 as [|r rs1 IH]; intros l fsc; [reflexivity|].
  cbn [app loop]. unfold bind.
  destruct (loop_body _ _ _ _ _) as [[l'|e] fsc']; [|reflexivity].
  rewrite IH. reflexivity.
Qed.

Lemma loop_last (start_timestamp end_timestamp : Z) (rs : list RunRes) (r : RunRes)
    (l : locals) (fsc : store) :
  end_timestamp ≠ start_timestamp ->
  exists fsc',
    loop start_timestamp end_timestamp (rs ++ [r]) l fsc
    = (Ok (Some (report r), Some (prices r), graphs_history r),
       <["run_progress" := PyFloat (progress_formula start_timestamp end_timestamp
                                                     (res_end_timestamp r))]>
         (step_writes r fsc')).
Proof.
  intros Hne. rewrite loop_app. unfold bind at 1.
  destruct (loop_Ok start_timestamp end_timestamp rs l fsc Hne) as [l' Hl].
  destruct (loop start_timestamp end_timestamp rs l fsc) as [res fsc'].
  cbn [fst] in Hl. subst res. exists fsc'. cbn [loop]. unfold bind at 1.
  rewrite loop_body_eq, run_progress_Ok by exact Hne. reflexivity.
Qed.

Lemma reads_after_step (r : RunRes) (x : Qc) (fsc : store) :
  let fsc' := <["run_progress" := PyFloat x]> (step_writes r fsc) in
  fsc_get "report_table" fsc' = PyReport (report r)
  /\ fsc_get "prices" fsc' = PyPrices (prices r)
  /\ fsc_get "graphs_history" fsc' = PyGraphs (graphs_history r)
  /\ fsc_get "run_progress" fsc' = PyFloat x.
Proof. cbn zeta. rewrite !get_insert, !get_step_writes. repeat split. Qed.

Section Ending.
Context {Portfolio : Type}.
Variables (json_loads : string -> result Portfolio)
          (strategy : Z -> Z -> Z -> Portfolio -> generator Report Prices Graph).

Lemma run_strategy_eq (json_portfolio : string)
    (start_timestamp end_timestamp primary_granularity : Z) (fsc : store) :
  run_strategy json_loads strategy json_portfolio
    start_timestamp end_timestamp primary_granularity fsc
  = match json_loads json_portfolio with
    | Err e => (Err e, fsc)
    | Ok portfolio =>
        let g := strategy start_timestamp end_timestamp primary_granularity portfolio in
        match loop start_timestamp end_timestamp (yielded g) no_locals fsc with
        | (Err e, fsc') => (Err e, fsc')
        | (Ok l, fsc') =>
            match raised g with
            | Some e => (Err e, fsc')
            | None =>
                match py_index l.2 (-1) with
                | Ok graph => (Ok (l.1.1, graph, l.1.2), fsc')
                | Err e => (Err e, fsc')
                end
            end
        end
    end.
Proof.
  unfold run_strategy, bind at 1, lift.
  destruct (json_loads json_portfolio) as [portfolio|e]; [|reflexivity].
  cbn zeta. unfold bind at 1, iterate, bind at 1. fold (@no_locals Report Prices Graph).
  destruct (loop _ _ _ _ _) as [[[[rd pd] gh]|e] fsc']; [|reflexivity].
  destruct (raised _); [reflexivity|]. unfold ret, bind, lift. cbn [fst snd].
  destruct (py_index gh (-1)); reflexivity.
Qed.

Lemma update_report_state_after_reset (n : Z) (json_portfolio : string)
    (start_timestamp end_timestamp primary_granularity : Z) (fsc : store) :
  update_report_state json_loads strategy (Some n) json_portfolio
    start_timestamp end_timestamp primary_granularity fsc
  = run_strategy json_loads strategy json_portfolio
      start_timestamp end_timestamp primary_granularity (reset_cache fsc).2.
Proof. reflexivity. Qed.

(** X16. A run whose end differs from its start, whose strategy yields at
    least one step and ends without raising, and whose last step carries a
    graphs history that is not empty, returns the report, the last graph
    and the prices of the last step, and leaves the four values of that
    last step in the store: each step overwrites the one before. *)
Theorem run_returns_the_last_step (n : Z) (json_portfolio : string)
    (start_timestamp end_timestamp primary_granularity : Z) (fsc : store)
    (portfolio : Portfolio) (rs : list RunRes) (r : RunRes)
    (graphs : list Graph) (graph : Graph) :
  end_timestamp ≠ start_timestamp ->
  json_loads json_portfolio = Ok portfolio ->
  strategy start_timestamp end_timestamp primary_granularity portfolio
    = mkGenerator (rs ++ [r]) None ->
  graphs_history r = graphs ++ [graph] ->
  exists fsc',
    update_report_state json_loads strategy (Some n) json_portfolio
      start_timestamp end_timestamp primary_granularity fsc
    = (Ok (Some (report r), graph, Some (prices r)), fsc')
    /\ fsc_get "report_table" fsc' = PyReport (report r)
    /\ fsc_get "prices" fsc' = PyPrices (prices r)
    /\ fsc_get "graphs_history" fsc' = PyGraphs (graphs_history r)
    /\ fsc_get "run_progress" fsc'
       = PyFloat (progress_formula start_timestamp end_timestamp
                                   (res_end_timestamp r)).
Proof.
  intros Hne Hp Hg Hgraphs.
  destruct (loop_last start_timestamp end_timestamp rs r no_locals
              (reset_cache fsc).2 Hne) as (fsc1 & Hloop).
  eexists. split.
  - rewrite update_report_state_after_reset, run_strategy_eq, Hp. cbn zeta.
    rewrite Hg. cbn [yielded raised]. rewrite Hloop. cbn [fst snd].
    rewrite Hgraphs, py_index_last. reflexivity.
  - apply reads_after_step.
Qed.

(** X17. A run whose strategy yields no step and does not raise cannot
    return its layout: the callback raises, at the latest with the
    [IndexError] of [graphs_history[-1]], and the store is as the reset left
    it. *)
Theorem run_without_steps_cannot_return (n : Z) (json_portfolio : string)
    (start_timestamp end_timestamp primary_granularity : Z) (fsc : store)
    (portfolio : Portfolio) :
  json_loads json_portfolio = Ok portfolio ->
  strategy start_timestamp end_timestamp primary_granularity portfolio
    = mkGenerator [] None ->
  is_Err (update_report_state json_loads strategy (Some n) json_portfolio
            start_timestamp end_timestamp primary_granularity fsc).1
  /\ (update_report_state json_loads strategy (Some n) json_portfolio
        start_timestamp end_timestamp primary_granularity fsc).2
     = (reset_cache fsc).2.
Proof.
  intros Hp Hg. rewrite update_report_state_after_reset, run_strategy_eq, Hp.
  cbn zeta. rewrite Hg. split; [exists IndexError|]; reflexivity.
Qed.

(** X18. When the strategy raises after having yielded some steps, in a run
    whose end differs from its start, the callback raises the same
    exception and the store keeps the four values of the last step yielded
    before it. *)
Theorem strategy_failure_keeps_published_steps (n : Z) (json_portfolio : string)
    (start_timestamp end_timestamp primary_granularity : Z) (fsc : store)
    (portfolio : Portfolio) (rs : list RunRes) (r : RunRes) (e : exn) :
  end_timestamp ≠ start_timestamp ->
  json_loads json_portfolio = Ok portfolio ->
  strategy start_timestamp end_timestamp primary_granularity portfolio
    = mkGenerator (rs ++ [r]) (Some e) ->
  exists fsc',
    update_report_state json_loads strategy (Some n) json_portfolio
      start_timestamp end_timestamp primary_granularity fsc
    = (Err e, fsc')
    /\ fsc_get "report_table" fsc' = PyReport (report r)
    /\ fsc_get "prices" fsc' = PyPrices (prices r)
    /\ fsc_get "graphs_history" fsc' = PyGraphs (graphs_history r)
    /\ fsc_get "run_progress" fsc'
       = PyFloat (progress_formula start_timestamp end_timestamp
                                   (res_end_timestamp r)).
Proof.
  intros Hne Hp Hg.
  destruct (loop_last start_timestamp end_timestamp rs r no_locals
              (reset_cache fsc).2 Hne) as (fsc1 & Hloop).
  eexists. split.
  - rewrite update_report_state_after_reset, run_strategy_eq, Hp. cbn zeta.
    rewrite Hg. cbn [yielded raised]. rewrite Hloop. reflexivity.
  - apply reads_after_step.
Qed.

End Ending.

(** *** The readers *)

Section Reading.
Context {Html : Type}.
Variables
  (create_report_table : pyval Report Prices Graph -> Html)
  (create_step_control : pyval Report Prices Graph -> bool -> Html)
  (create_trades_predictions : pyval Report Prices Graph -> Html)
  (create_trades : pyval Report Prices Graph -> Z -> Html)
  (create_network : Graph -> Html)
  (create_prices : pyval Report Prices Graph -> Html).

Lemma update_network_eq (graph_idx : Z) (fsc : store) :
  update_network create_network graph_idx fsc
  = match fsc_get "graphs_history" fsc with
    | PyNone => (Err PreventUpdate, fsc)
    | PyGraphs [] => (Err PreventUpdate, fsc)
    | PyGraphs data =>
        match py_index data graph_idx with
        | Ok graph => (Ok (create_network graph), fsc)
        | Err e => (Err e, fsc)
        end
    | _ => (Err TypeError, fsc)
    end.
Proof.
  unfold update_network, bind at 1, get.
  destruct (fsc_get "graphs_history" fsc) as [| | | |[|g data]]; reflexivity.
Qed.

Lemma update_report_table_eq (fsc : store) :
  update_report_table create_report_table fsc
  = match fsc_get "report_table" fsc with
    | PyNone => (Err PreventUpdate, fsc)
    | data => (Ok (create_report_table data, display_block), fsc)
    end.
Proof.
  unfold update_report_table, bind, get.
  destruct (fsc_get "report_table" fsc); reflexivity.
Qed.

Lemma update_step_control_eq (fsc : store) :
  update_step_control create_step_control fsc
  = match fsc_get "report_table" fsc with
    | PyNone => (Err PreventUpdate, fsc)
    | data => (Ok (create_step_control data true), fsc)
    end.
Proof.
  unfold update_step_control, bind, get.
  destruct (fsc_get "report_table" fsc); reflexivity.
Qed.

Lemma update_trades_predictions_eq (fsc : store) :
  update_trades_predictions create_trades_predictions fsc
  = match fsc_get "report_table" fsc with
    | PyNone => (Err PreventUpdate, fsc)
    | data => (Ok (create_trades_predictions data), fsc)
    end.
Proof.
  unfold update_trades_predictions, bind, get.
  destruct (fsc_get "report_table" fsc); reflexivity.
Qed.

Lemma update_trades_eq (gran : Z) (fsc : store) :
  update_trades create_trades gran fsc
  = match fsc_get "report_table" fsc with
    | PyNone => (Err PreventUpdate, fsc)
    | data => (Ok (create_trades data gran), fsc)
    end.
Proof.
  unfold update_trades, bind, get.
  destruct (fsc_get "report_table" fsc); reflexivity.
Qed.

Lemma update_prices_eq (fsc : store) :
  update_prices create_prices fsc
  = match fsc_get "prices" fsc with
    | PyNone => (Err PreventUpdate, fsc)
    | data => (Ok (create_prices data), fsc)
    end.
Proof.
  unfold update_prices, bind, get.
  destruct (fsc_get "prices" fsc); reflexivity.
Qed.

Lemma update_running_eq (gran step : Z) (fsc : store) :
  update_running create_step_control create_trades_predictions create_trades
    create_network create_prices gran step fsc
  = match update_step_control create_step_control fsc with
    | (Err e, fsc') => (Err e, fsc')
    | (Ok a, fsc1) =>
      match update_trades_predictions create_trades_predictions fsc1 with
      | (Err e, fsc') => (Err e, fsc')
      | (Ok b, fsc2) =>
        match update_trades create_trades gran fsc2 with
        | (Err e, fsc') => (Err e, fsc')
        | (Ok c, fsc3) =>
          match update_network create_network step fsc3 with
          | (Err e, fsc') => (Err e, fsc')
          | (Ok d, fsc4) =>
            match update_prices create_prices fsc4 with
            | (Err e, fsc') => (Err e, fsc')
            | (Ok e, fsc5) => (Ok (a, b, c, d, e), fsc5)
            end
          end
        end
      end
    end.
Proof.
  unfold update_running, bind, ret.
  destruct (update_step_control _ _) as [[a|e] fsc1]; [|reflexivity].
  destruct (update_trades_predictions _ _) as [[b|e] fsc2]; [|reflexivity].
  destruct (update_trades _ _ _) as [[c|e] fsc3]; [|reflexivity].
  destruct (update_network _ _ _) as [[d|e] fsc4]; [|reflexivity].
  destruct (update_prices _ _) as [[e'|e] fsc5]; reflexivity.
Qed.

(** X19. After [reset_cache] the readers of the report table and of the
    prices have nothing to show: [update_report_table],
    [update_step_control], [update_trades_predictions], [update_trades],
    [update_prices] and the interval callback [update_running] all raise
    [PreventUpdate] and leave the store alone; [update_network] answers as
    it did before the reset, the graphs history having been kept. *)
Theorem readers_wait_after_reset (gran step graph_idx : Z) (fsc : store) :
  update_report_table create_report_table (reset_cache fsc).2
    = (Err PreventUpdate, (reset_cache fsc).2)
  /\ update_step_control create_step_control (reset_cache fsc).2
     = (Err PreventUpdate, (reset_cache fsc).2)
  /\ update_trades_predictions create_trades_predictions (reset_cache fsc).2
     = (Err PreventUpdate, (reset_cache fsc).2)
  /\ update_trades create_trades gran (reset_cache fsc).2
     = (Err PreventUpdate, (reset_cache fsc).2)
  /\ update_prices create_prices (reset_cache fsc).2
     = (Err PreventUpdate, (reset_cache fsc).2)
  /\ update_running create_step_control create_trades_predictions create_trades
       create_network create_prices gran step (reset_cache fsc).2
     = (Err PreventUpdate, (reset_cache fsc).2)
  /\ (update_network create_network graph_idx (reset_cache fsc).2).1
     = (update_network create_network graph_idx fsc).1.
Proof.
  assert (Hr : fsc_get "report_table" (reset_cache fsc).2 = PyNone)
    by (rewrite get_reset; reflexivity).
  assert (Hp : fsc_get "prices" (reset_cache fsc).2 = PyNone)
    by (rewrite get_reset; reflexivity).
  assert (Hg : fsc_get "graphs_history" (reset_cache fsc).2
               = fsc_get "graphs_history" fsc)
    by (rewrite get_reset; reflexivity).
  split_and!.
  - rewrite update_report_table_eq, Hr. reflexivity.
  - rewrite update_step_control_eq, Hr. reflexivity.
  - rewrite update_trades_predictions_eq, Hr. reflexivity.
  - rewrite update_trades_eq, Hr. reflexivity.
  - rewrite update_prices_eq, Hp. reflexivity.
  - rewrite update_running_eq, update_step_control_eq, Hr. reflexivity.
  - rewrite !update_network_eq, Hg.
    destruct (fsc_get "graphs_history" fsc) as [| | | |[|g data]]; try reflexivity.
    destruct (py_index _ _); reflexivity.
Qed.

(** X20. On a store whose graphs history is a list that is not empty,
    [update_network] shows the graph at the given index, a negative index
    counting from the end and [-1] giving the last graph, raises
    [IndexError] for an index outside [-len, len)], and in both cases leaves
    the store as it was. *)
Theorem update_network_indexing (graph_idx : Z) (fsc : store)
    (graphs : list Graph) (last_graph : Graph) :
  fsc_get "graphs_history" fsc = PyGraphs (graphs ++ [last_graph]) ->
  (- Z.of_nat (length (graphs ++ [last_graph])) <= graph_idx
     < Z.of_nat (length (graphs ++ [last_graph])) ->
   exists graph,
     (graphs ++ [last_graph]) !! wrap (length (graphs ++ [last_graph])) graph_idx
       = Some graph
     /\ update_network create_network graph_idx fsc
        = (Ok (create_network graph), fsc))
  /\ (graph_idx < - Z.of_nat (length (graphs ++ [last_graph]))
      \/ Z.of_nat (length (graphs ++ [last_graph])) <= graph_idx ->
      update_network create_network graph_idx fsc = (Err IndexError, fsc))
  /\ update_network create_network (-1) fsc = (Ok (create_network last_graph), fsc).
Proof.
  intros Hg.
  assert (E : forall idx, update_network create_network idx fsc
    = match py_index (graphs ++ [last_graph]) idx with
      | Ok graph => (Ok (create_network graph), fsc)
      | Err e => (Err e, fsc)
      end).
  { intros idx. rewrite update_network_eq, Hg.
    destruct graphs; reflexivity. }
  split; [|split].
  - intros Hin. destruct (py_index_inside _ _ Hin) as (graph & Hgraph & Hpy).
    exists graph. split; [exact Hgraph|]. rewrite E, Hpy. reflexivity.
  - intros Hout. rewrite E, (py_index_outside _ _ Hout). reflexivity.
  - rewrite E, py_index_last. reflexivity.
Qed.

(** X21. Right after a step of a run was published, in a run whose end
    differs from its start, the interval callback [update_running] shows
    that step: the three report views are built from its report, the
    network from the graph of its history at the slider's index, the prices
    from its prices; the store is left as it was. *)
Theorem update_running_shows_the_published_step
    (start_timestamp end_timestamp : Z) (l : locals) (r : RunRes) (fsc : store)
    (gran step : Z) :
  end_timestamp ≠ start_timestamp ->
  - Z.of_nat (length (graphs_history r)) <= step
    < Z.of_nat (length (graphs_history r)) ->
  exists graph,
    graphs_history r !! wrap (length (graphs_history r)) step = Some graph
    /\ update_running create_step_control create_trades_predictions create_trades
         create_network create_prices gran step
         (loop_body start_timestamp end_timestamp l r fsc).2
       = (Ok (create_step_control (PyReport (report r)) true,
              create_trades_predictions (PyReport (report r)),
              create_trades (PyReport (report r)) gran,
              create_network graph,
              create_prices (PyPrices (prices r))),
          (loop_body start_timestamp end_timestamp l r fsc).2).
Proof.
  intros Hne Hin. rewrite loop_body_eq, run_progress_Ok by exact Hne. cbn [snd].
  destruct (reads_after_step r (progress_formula start_timestamp end_timestamp
              (res_end_timestamp r)) fsc) as (Hr & Hp & Hg & _).
  cbn zeta in Hr, Hp, Hg.
  destruct (py_index_inside _ _ Hin) as (graph & Hgraph & Hpy).
  exists graph. split; [exact Hgraph|].
  rewrite update_running_eq, update_step_control_eq, Hr.
  rewrite update_trades_predictions_eq, Hr, update_trades_eq, Hr.
  rewrite update_network_eq, Hg.
  destruct (graphs_history r) as [|g0 gs] eqn:Egs; [simpl in Hin; lia|].
  rewrite Hpy, update_prices_eq, Hp. reflexivity.
Qed.

End Reading.

Lemma typed_empty : store_typed (∅ : store).
Proof. unfold store_typed, fsc_get. rewrite !lookup_empty. auto. Qed.

Section Invariant.
Context {Portfolio Html : Type}.

(** X13. The store keeps its types: when each of the keys [report_table],
    [run_progress], [graphs_history] and [prices] holds [None] or a value of
    its own kind (a report, a number, a list of graphs, prices), it still
    does after [reset_cache], after [on_page_load], after a whole
    [update_report_state], however it ends, and after [update_run_progress];
    on such a store [update_run_progress] never raises. *)
Theorem store_keeps_its_types
    (json_loads : string -> result Portfolio)
    (strategy : Z -> Z -> Z -> Portfolio -> generator Report Prices Graph)
    (create_progress_bar : Qc -> Html)
    (run_n_clicks : option Z) (json_portfolio : string)
    (start_timestamp end_timestamp primary_granularity : Z) (fsc : store) :
  store_typed fsc ->
  store_typed (reset_cache fsc).2
  /\ store_typed (@on_page_load Report Prices Graph Html fsc).2
  /\ store_typed (update_report_state json_loads strategy run_n_clicks json_portfolio
                    start_timestamp end_timestamp primary_granularity fsc).2
  /\ store_typed (update_run_progress create_progress_bar fsc).2
  /\ is_Ok (update_run_progress create_progress_bar fsc).1.
Proof.
  intros H. split; [apply typed_reset, H|]. split.
  { apply bind_snd_typed; [apply typed_reset, H|]. intros _ fsc' H'. exact H'. }
  split; [apply typed_update_report_state, H|].
  apply typed_update_run_progress, H.
Qed.

End Invariant.

End Store.

Abbreviation sample_store := (gmap string (pyval string string Z)).

Lemma store_keeps_its_types_witness :
  store_typed (∅ : sample_store)
  /\ (store_typed (reset_cache (∅ : sample_store)).2
      /\ store_typed (@on_page_load string string Z Qc (∅ : sample_store)).2
      /\ store_typed (update_report_state accept (yielding [0; 60; 120]) (Some 1) "{}"
                        0 120 60 (∅ : sample_store)).2
      /\ store_typed (update_run_progress bar (∅ : sample_store)).2
      /\ is_Ok (update_run_progress bar (∅ : sample_store)).1).
Proof.
  split; [apply typed_empty|].
  apply (store_keeps_its_types accept (yielding [0; 60; 120]) bar (Some 1) "{}"
           0 120 60 ∅ typed_empty).
Defined.

Lemma poll_at_100_resets_witness :
  fsc_get "run_progress" (at_progress (Qc_of_Z 125)) = PyFloat (Qc_of_Z 125)
  /\ (hundred ≤ Qc_of_Z 125)%Qc
  /\ (update_run_progress bar (at_progress (Qc_of_Z 125))
      = (Ok (bar hundred), (reset_cache (at_progress (Qc_of_Z 125))).2)
      /\ update_run_progress bar (reset_cache (at_progress (Qc_of_Z 125))).2
        = (Ok (bar 0%Qc), (reset_cache (at_progress (Qc_of_Z 125))).2)).
Proof.
  assert (H : (hundred ≤ Qc_of_Z 125)%Qc) by compute_done.
  split; [reflexivity|]. split; [exact H|].
  exact (poll_at_100_resets bar (at_progress (Qc_of_Z 125)) (Qc_of_Z 125) eq_refl H).
Defined.

Lemma poll_below_100_reads_only_witness :
  fsc_get "run_progress" (at_progress (Qc_of_Z 50)) = PyFloat (Qc_of_Z 50)
  /\ (Qc_of_Z 50 < hundred)%Qc
  /\ update_run_progress bar (at_progress (Qc_of_Z 50))
     = (Ok (bar (Qc_of_Z 50)), at_progress (Qc_of_Z 50)).
Proof.
  assert (H : (Qc_of_Z 50 < hundred)%Qc) by compute_done.
  split; [reflexivity|]. split; [exact H|].
  exact (poll_below_100_reads_only bar (at_progress (Qc_of_Z 50)) (Qc_of_Z 50)
           eq_refl H).
Defined.

Lemma run_returns_the_last_step_witness :
  120 ≠ 0
  /\ accept "{}" = Ok "{}"%string
  /\ yielding [0; 60; 120] 0 120 60 "{}"%string
     = mkGenerator ([res_at 0; res_at 60] ++ [res_at 120]) None
  /\ graphs_history (res_at 120) = [] ++ [120]
  /\ exists fsc',
      update_report_state accept (yielding [0; 60; 120]) (Some 1) "{}" 0 120 60
        (∅ : sample_store)
      = (Ok (Some (report (res_at 120)), 120, Some (prices (res_at 120))), fsc')
      /\ fsc_get "report_table" fsc' = PyReport (report (res_at 120))
      /\ fsc_get "prices" fsc' = PyPrices (prices (res_at 120))
      /\ fsc_get "graphs_history" fsc' = PyGraphs (graphs_history (res_at 120))
      /\ fsc_get "run_progress" fsc'
         = PyFloat (progress_formula 0 120 (res_end_timestamp (res_at 120))).
Proof.
  split; [lia|]. split; [reflexivity|]. split; [reflexivity|]. split; [reflexivity|].
  apply (run_returns_the_last_step accept (yielding [0; 60; 120]) 1 "{}" 0 120 60 ∅
           "{}"%string [res_at 0; res_at 60] (res_at 120) [] 120);
    [lia|reflexivity|reflexivity|reflexivity].
Defined.

Lemma run_without_steps_cannot_return_witness :
  accept "{}" = Ok "{}"%string
  /\ yielding [] 120 0 60 "{}"%string = mkGenerator [] None
  /\ (is_Err (update_report_state accept (yielding []) (Some 1) "{}" 120 0 60 stale).1
      /\ (update_report_state accept (yielding []) (Some 1) "{}" 120 0 60 stale).2
         = (reset_cache stale).2).
Proof.
  split; [reflexivity|]. split; [reflexivity|].
  exact (run_without_steps_cannot_return accept (yielding []) 1 "{}" 120 0 60
           stale "{}"%string eq_refl eq_refl).
Defined.

Lemma strategy_failure_keeps_published_steps_witness :
  120 ≠ 0
  /\ accept "{}" = Ok "{}"%string
  /\ failing_after [0; 60] (Raised "no prices") 0 120 60 "{}"%string
     = mkGenerator ([res_at 0] ++ [res_at 60]) (Some (Raised "no prices"))
  /\ exists fsc',
      update_report_state accept (failing_after [0; 60] (Raised "no prices"))
        (Some 1) "{}" 0 120 60 (∅ : sample_store)
      = (Err (Raised "no prices"), fsc')
      /\ fsc_get "report_table" fsc' = PyReport (report (res_at 60))
      /\ fsc_get "prices" fsc' = PyPrices (prices (res_at 60))
      /\ fsc_get "graphs_history" fsc' = PyGraphs (graphs_history (res_at 60))
      /\ fsc_get "run_progress" fsc'
         = PyFloat (progress_formula 0 120 (res_end_timestamp (res_at 60))).
Proof.
  split; [lia|]. split; [reflexivity|]. split; [reflexivity|].
  apply (strategy_failure_keeps_published_steps accept
           (failing_after [0; 60] (Raised "no prices")) 1 "{}" 0 120 60 ∅
           "{}"%string [res_at 0] (res_at 60) (Raised "no prices"));
    [lia|reflexivity|reflexivity].
Defined.

Lemma update_network_indexing_witness :
  fsc_get "graphs_history" (with_graphs ([10; 20] ++ [30]))
    = PyGraphs ([10; 20] ++ [30])
  /\ ((- Z.of_nat (length ([10; 20] ++ [30])) <= -2
         < Z.of_nat (length ([10; 20] ++ [30])) ->
       exists graph,
         ([10; 20] ++ [30]) !! wrap (length ([10; 20] ++ [30])) (-2) = Some graph
         /\ update_network show_graph (-2) (with_graphs ([10; 20] ++ [30]))
            = (Ok (show_graph graph), with_graphs ([10; 20] ++ [30])))
      /\ (-2 < - Z.of_nat (length ([10; 20] ++ [30]))
          \/ Z.of_nat (length ([10; 20] ++ [30])) <= -2 ->
          update_network show_graph (-2) (with_graphs ([10; 20] ++ [30]))
          = (Err IndexError, with_graphs ([10; 20] ++ [30])))
      /\ update_network show_graph (-1) (with_graphs ([10; 20] ++ [30]))
         = (Ok (show_graph 30), with_graphs ([10; 20] ++ [30]))).
Proof.
  split; [reflexivity|].
  exact (update_network_indexing show_graph (-2) (with_graphs ([10; 20] ++ [30]))
           [10; 20] 30 eq_refl).
Defined.

Lemma update_running_shows_the_published_step_witness :
  100 ≠ 0
  /\ - Z.of_nat (length (graphs_history (res_at 50))) <= -1
      < Z.of_nat (length (graphs_history (res_at 50)))
  /\ exists graph,
      graphs_history (res_at 50) !! wrap (length (graphs_history (res_at 50))) (-1)
        = Some graph
      /\ update_running show_step show show_trades show_graph show 60 (-1)
           (loop_body 0 100 no_locals (res_at 50) (∅ : sample_store)).2
         = (Ok (show_step (PyReport (report (res_at 50))) true,
                show (PyReport (report (res_at 50))),
                show_trades (PyReport (report (res_at 50))) 60,
                show_graph graph,
                show (PyPrices (prices (res_at 50)))),
            (loop_body 0 100 no_locals (res_at 50) (∅ : sample_store)).2).
Proof.
  assert (H : - Z.of_nat (length (graphs_history (res_at 50))) <= -1
              < Z.of_nat (length (graphs_history (res_at 50)))) by (simpl; lia).
  split; [lia|]. split; [exact H|].
  apply (update_running_shows_the_published_step show_step show show_trades
           show_graph show 0 100 no_locals (res_at 50) ∅ 60 (-1)); [lia|exact H].
Defined.

End DashboardMore.
